(** * HiLyte: the comprehensive extraction pipeline and its credit ledger

    A shallow embedding of
      - [backend/services/ai_extraction_service.py] (class AIExtractionService),
      - [backend/services/credit_service.py]        (class CreditService),
      - [backend/models.py]                         (the tables the two touch),
      - [backend/blueprints/ai_extraction.py]       (the two extraction endpoints),
    followed by the properties of the pipeline and of the ledger.

    Conventions of the embedding.
      - A decoded JSON value is a [pyval]; a dict is an association list
        with distinct keys.  Strings are ASCII.
      - Python exceptions are values of [exn]; an expression that may raise
        returns a [res], a statement is a computation [M] whose state
        survives the exception, as the session does in a [try].
      - Python floats are IEEE-754 binary64 numbers ([spec_float] at
        precision 53), so [int((n / r) * 100)] rounds as the interpreter
        does.
      - Credit amounts are exact rationals: the ledger columns are
        [Numeric(10, 5)], decimals that are stored and summed exactly, and
        the cost [tokens_used * 0.0001] has four decimals.  Arithmetic
        between amounts is the arithmetic of numbers.
      - Everything outside the process (OCR, the file system, the hosted
        model, the JSON decoder, the clock, database availability) is read
        from a [World]: every database round trip may raise, as the world
        decides.
      - The page of a single-page request is an int. *)

From Stdlib Require Import ZArith QArith Qround List String Ascii Bool Lia Lqa.
From Stdlib Require Import SpecFloat DecimalString Permutation.
Import ListNotations.

Local Open Scope string_scope.
Local Close Scope list_scope.
Local Open Scope list_scope.
Local Open Scope Z_scope.

(* ===================================================================== *)
(** ** Python values *)
(* ===================================================================== *)

Module Py.

(** The exceptions the modelled code can meet. *)
Inductive exn : Type :=
| AttributeError
| TypeError
| KeyError
| NameError
| ValueError
| OverflowError
| ZeroDivisionError
| IOError
| JSONDecodeError
| APIError
| DBError.

(** Outcome of an expression that may raise. *)
Inductive res (A : Type) : Type :=
| Ok (a : A)
| Exc (e : exn).
Arguments Ok {A} a.
Arguments Exc {A} e.

Definition res_bind {A B} (r : res A) (k : A -> res B) : res B :=
  match r with
  | Ok a => k a
  | Exc e => Exc e
  end.

Notation "x <-? r ; k" := (res_bind r (fun x => k))
  (at level 61, r at next level, right associativity).

(** What [json.loads] can produce (and the ORM's JSON columns hold). *)
#[warnings="-register-all"]
Inductive pyval : Type :=
| PyNone
| PyBool (b : bool)
| PyInt (z : Z)
| PyFloat (f : spec_float)
| PyStr (s : string)
| PyList (l : list pyval)
| PyDict (d : list (string * pyval)).

(** [d.get(k)], on the entries of a dict. *)
Fixpoint lookup (d : list (string * pyval)) (k : string) : option pyval :=
  match d with
  | [] => None
  | (k', v) :: d' => if String.eqb k' k then Some v else lookup d' k
  end.

(** [v.get(k, default)]: only dicts have the method. *)
Definition get (v : pyval) (k : string) (default : pyval) : res pyval :=
  match v with
  | PyDict d => Ok (match lookup d k with Some x => x | None => default end)
  | _ => Exc AttributeError
  end.

(** [for x in v]: lists give their elements, dicts their keys, strings their
    characters; nothing else is iterable. *)
Fixpoint chars (s : string) : list pyval :=
  match s with
  | EmptyString => []
  | String c s' => PyStr (String c EmptyString) :: chars s'
  end.

Definition iter (v : pyval) : res (list pyval) :=
  match v with
  | PyList l => Ok l
  | PyDict d => Ok (map (fun kv => PyStr (fst kv)) d)
  | PyStr s => Ok (chars s)
  | _ => Exc TypeError
  end.

(** Truth value of [if v:]. *)
Definition truthy (v : pyval) : bool :=
  match v with
  | PyNone => false
  | PyBool b => b
  | PyInt z => negb (z =? 0)%Z
  | PyFloat f => match f with S754_zero _ => false | _ => true end
  | PyStr s => negb (String.eqb s "")
  | PyList l => match l with [] => false | _ => true end
  | PyDict d => match d with [] => false | _ => true end
  end.

(** [c.lower()] on one ASCII character. *)
Definition lower_ascii (c : ascii) : ascii :=
  let n := nat_of_ascii c in
  if (65 <=? n)%nat && (n <=? 90)%nat then ascii_of_nat (n + 32) else c.

(** [s.lower()] (ASCII strings). *)
Fixpoint lower (s : string) : string :=
  match s with
  | EmptyString => EmptyString
  | String c s' => String (lower_ascii c) (lower s')
  end.

(** [v.lower()]: only strings have the method. *)
Definition lower_val (v : pyval) : res string :=
  match v with
  | PyStr s => Ok (lower s)
  | _ => Exc AttributeError
  end.

(** [needle in hay] on strings: substring test. *)
Fixpoint contains (needle hay : string) : bool :=
  prefix needle hay ||
  match hay with
  | EmptyString => false
  | String _ hay' => contains needle hay'
  end.

(** [v in hay] with [hay] a string: the left operand must be a string. *)
Definition in_str (v : pyval) (hay : string) : res bool :=
  match v with
  | PyStr s => Ok (contains s hay)
  | _ => Exc TypeError
  end.

(** [s.strip()]: whitespace removed at both ends. *)
Definition is_space (c : ascii) : bool :=
  let n := nat_of_ascii c in
  ((9 <=? n)%nat && (n <=? 13)%nat) || ((28 <=? n)%nat && (n <=? 32)%nat).

Fixpoint lstrip (s : string) : string :=
  match s with
  | EmptyString => EmptyString
  | String c s' => if is_space c then lstrip s' else s
  end.

Fixpoint rstrip (s : string) : string :=
  match s with
  | EmptyString => EmptyString
  | String c s' =>
      let r := rstrip s' in
      if is_space c && String.eqb r "" then EmptyString else String c r
  end.

Definition strip (s : string) : string := rstrip (lstrip s).

(** [s.find(c)] and [s.rfind(c)] for a one-character [c]; [None] is -1. *)
Definition find (c : ascii) (s : string) : option nat :=
  index 0 (String c EmptyString) s.

Fixpoint rfind_from (c : ascii) (s : string) (i : nat) : option nat :=
  match s with
  | EmptyString => None
  | String a s' =>
      match rfind_from c s' (S i) with
      | Some j => Some j
      | None => if Ascii.eqb a c then Some i else None
      end
  end.

Definition rfind (c : ascii) (s : string) : option nat := rfind_from c s 0.

(** [s[i : j + 1]]. *)
Definition slice_incl (s : string) (i j : nat) : string :=
  substring i (S j - i) s.

(** [str(z)] for an int. *)
Definition str_of_int (z : Z) : string := NilZero.string_of_int (Z.to_int z).

(** [len(v)]. *)
Definition len (v : pyval) : res nat :=
  match v with
  | PyList l => Ok (List.length l)
  | PyDict d => Ok (List.length d)
  | PyStr s => Ok (String.length s)
  | _ => Exc TypeError
  end.

(** Results of a comprehension whose element expression may raise. *)
Fixpoint map_res {A B} (f : A -> res B) (l : list A) : res (list B) :=
  match l with
  | [] => Ok []
  | x :: l' => y <-? f x ; ys <-? map_res f l' ; Ok (y :: ys)
  end.

(** [[x for x in l if p x]] with a condition that may raise. *)
Fixpoint filter_res {A} (p : A -> res bool) (l : list A) : res (list A) :=
  match l with
  | [] => Ok []
  | x :: l' =>
      b <-? p x ; ys <-? filter_res p l' ; Ok (if b then x :: ys else ys)
  end.

End Py.
Import Py.

(* ===================================================================== *)
(** ** Binary64 arithmetic *)
(* ===================================================================== *)

Module Float64.

Definition prec : Z := 53.
Definition emax : Z := 1024.

Definition fmul : spec_float -> spec_float -> spec_float := SFmul prec emax.
Definition fdiv : spec_float -> spec_float -> spec_float := SFdiv prec emax.
Definition fadd : spec_float -> spec_float -> spec_float := SFadd prec emax.

(** [float(z)], correctly rounded. *)
Definition of_Z (z : Z) : spec_float := binary_normalize prec emax z 0 false.

(** [a / b] on ints: the correctly rounded quotient, [ZeroDivisionError]
    on a zero divisor. *)
Definition truediv (a b : Z) : res spec_float :=
  match b with
  | Z0 => Exc ZeroDivisionError
  | _ =>
      match a with
      | Z0 => Ok (S754_zero (b <? 0))
      | _ => Ok (fdiv (S754_finite (a <? 0) (Z.to_pos (Z.abs a)) 0)
                      (S754_finite (b <? 0) (Z.to_pos (Z.abs b)) 0))
      end
  end.

(** [int(f)]: truncation toward zero; infinities and NaN raise. *)
Definition to_int (f : spec_float) : res Z :=
  match f with
  | S754_zero _ => Ok 0
  | S754_finite s m e =>
      let a := match e with
               | Zneg k => Z.shiftr (Zpos m) (Zpos k)
               | _ => Z.shiftl (Zpos m) e
               end in
      Ok (if s then - a else a)
  | S754_infinity _ => Exc OverflowError
  | S754_nan => Exc ValueError
  end.

(** [z == f] between an int and a float compares the exact values. *)
Definition eq_Z (z : Z) (f : spec_float) : bool :=
  match f with
  | S754_zero _ => z =? 0
  | S754_finite s m e =>
      let v := if s then Zneg m else Zpos m in
      match e with
      | Zneg k => (Z.land (Zpos m) (Z.ones (Zpos k)) =? 0) && (z =? Z.shiftr v (Zpos k))
      | _ => z =? Z.shiftl v e
      end
  | _ => false
  end.

(** [0 < f]. *)
Definition positive (f : spec_float) : bool :=
  match f with
  | S754_finite false _ _ | S754_infinity false => true
  | _ => false
  end.

(** [z <= f] for an int [z]. *)
Definition ge_Z (f : spec_float) (z : Z) : bool :=
  SFleb (of_Z z) f.

End Float64.

(* ===================================================================== *)
(** ** The CSI taxonomy *)
(* ===================================================================== *)

(** A division as the service receives it: [ConstructionDivision.to_dict()]
    (or the three-key default).  [div_extra] holds the keys besides id, name
    and code. *)
Record division : Type := mkDivision {
  div_id : Z;
  div_name : string;
  div_code : string;
  div_extra : list (string * pyval)
}.

(** [n == v] for an int [n]: bools and floats compare by value. *)
Definition int_eq (n : Z) (v : pyval) : bool :=
  match v with
  | PyInt z => n =? z
  | PyBool b => n =? Z.b2z b
  | PyFloat f => Float64.eq_Z n f
  | _ => false
  end.

(** [s == v] for a string [s]. *)
Definition str_eq (s : string) (v : pyval) : bool :=
  match v with
  | PyStr t => String.eqb s t
  | _ => false
  end.

(** A processed item of [_parse_smart_extraction_response]. *)
Record item : Type := mkItem {
  itemName : pyval;
  category : pyval;
  csiDivision : division;
  procurementData : pyval;
  location : pyval;
  confidence : pyval
}.

(** The dict [smart_extraction_analysis] returns. *)
Record smart_result : Type := mkSmart {
  smart_success : bool;
  smart_error : option exn;
  extractedItems : list item;
  smart_summary : pyval
}.

(** The dict [enhanced_nlp_analysis] returns: [{'success': True, 'data': d}]
    or [{'success': False, 'error': e}] (timestamps left out). *)
Inductive nlp_result : Type :=
| NLPSuccess (data : pyval)
| NLPFailure (error : exn).

(** The dict [_generate_combined_insights] returns. *)
Record insights : Type := mkInsights {
  totalDataPoints : pyval;
  requirementsCoverage : Z;
  recommendedActions : list string;
  extractionQuality : string
}.

(** The ['processing'] entry of a comprehensive result. *)
Record processing : Type := mkProcessing {
  totalTime : spec_float;
  ocrCharacters : nat
}.

(** What [comprehensive_extraction] returns: the full result, or the dict
    of its [except] branch, which has no ['smartExtraction'] key. *)
Inductive extraction_result : Type :=
| Comprehensive (smartExtraction : smart_result) (enhancedNLP : nlp_result)
                (combinedInsights : insights) (proc : processing)
| ExtractionError (error : exn) (elapsed : spec_float).

(** A request to [client.messages.create], by the parts that vary: the
    taxonomy lines of the system prompt, the four metadata values of the
    user prompt (when the metadata dict is non-empty), the OCR text, the
    image and the token limit. *)
Inductive llm_request : Type :=
| SmartRequest (division_lines : list (string * string))
               (metadata_text : option (pyval * pyval * pyval * pyval))
               (ocr_text : string) (image_base64 : string) (max_tokens : Z)
| NLPRequest (ocr_text : string) (max_tokens : Z).

(** Calls that leave the process, in the order they are made. *)
Inductive event : Type :=
| EvOCR (image_path : string)
| EvReadImage (image_path : string)
| EvLLM (request : llm_request).

(** Everything the code reads from outside.  The [nat] arguments number the
    call (events so far, database operations so far), so that two calls need
    not answer alike. *)
Record World : Type := mkWorld {
  json_loads : string -> option pyval;
  image_to_string : string -> res string;
  read_base64 : string -> res string;
  messages_create : nat -> llm_request -> res string;
  clock : nat -> spec_float;
  api_key : bool;
  path_exists : string -> bool;
  db_fault : nat -> bool
}.

(* ===================================================================== *)
(** ** Tables and session ([models.py], [extensions.db]) *)
(* ===================================================================== *)

Module Models.

Record Drawing : Type := mkDrawing {
  drawing_id : Z;
  drawing_user_id : Z;
  drawing_name : string;
  total_pages : option Z;
  sheet_metadata : pyval
}.

Record DrawingProfile : Type := mkProfile {
  profile_drawing_id : Z;
  discipline : pyval;
  scale : pyval;
  industry : pyval
}.

Record ConstructionDivision : Type := mkConstructionDivision {
  to_dict : division;
  is_active : bool
}.

(** A ledger row.  [metadata] is kept by its two fields. *)
Record AICreditTransaction : Type := mkTransaction {
  txn_user_id : Z;
  txn_type : string;
  amount : Q;
  balance : Q;
  description : string;
  operation : string;
  tokensUsed : Z
}.

(** The [source_location] f-string, by its holes: ["Page {page}"] or
    ["Page {page} ({x},{y})"]. *)
Inductive source_loc : Type :=
| PageOnly (page : Z)
| PageAt (page : Z) (x y : pyval).

(** The [data] column of an extracted row. *)
Record extraction_data : Type := mkExtractionData {
  data_itemName : pyval;
  data_category : pyval;
  data_location : pyval;
  data_procurementData : pyval;
  data_confidence : pyval;
  data_nlpContext : option (list pyval * list pyval)
}.

Record ExtractedData : Type := mkExtractedData {
  row_drawing_id : Z;
  row_user_id : Z;
  row_division_id : Z;
  row_type : string;
  source_location : source_loc;
  data : extraction_data;
  row_confidence : pyval;
  extraction_method : string;
  ai_model_used : string;
  processing_time : spec_float
}.

(** Committed contents of the tables the endpoints use. *)
Record DB : Type := mkDB {
  users : list Z;
  drawings : list Drawing;
  drawing_profiles : list DrawingProfile;
  construction_divisions : list ConstructionDivision;
  ai_credit_transactions : list AICreditTransaction;
  extracted_data : list ExtractedData
}.

(** An object handed to [db.session.add]. *)
Inductive obj : Type :=
| ObjTransaction (t : AICreditTransaction)
| ObjRow (r : ExtractedData).

(** State of one request: the database, the session's pending objects, the
    number of database operations made and the outside calls made. *)
Record State : Type := mkState {
  db : DB;
  pending : list obj;
  db_ops : nat;
  trace : list event
}.

Definition pending_transactions (l : list obj) : list AICreditTransaction :=
  flat_map (fun o => match o with ObjTransaction t => [t] | ObjRow _ => [] end) l.

Definition pending_rows (l : list obj) : list ExtractedData :=
  flat_map (fun o => match o with ObjRow r => [r] | ObjTransaction _ => [] end) l.

(** The database after the pending objects have been written. *)
Definition flush (d : DB) (l : list obj) : DB :=
  mkDB (users d) (drawings d) (drawing_profiles d) (construction_divisions d)
       (ai_credit_transactions d ++ pending_transactions l)
       (extracted_data d ++ pending_rows l).

(** [sum(t.amount for t in transactions)]. *)
Definition sum_amounts (l : list AICreditTransaction) : Q :=
  fold_left (fun acc t => acc + amount t)%Q l 0%Q.

Definition transactions_of (user_id : Z) (l : list AICreditTransaction)
  : list AICreditTransaction :=
  filter (fun t => txn_user_id t =? user_id) l.

End Models.
Import Models.

(* ===================================================================== *)
(** ** Computations: state that survives a raised exception *)
(* ===================================================================== *)

Module Run.

Definition M (A : Type) : Type := State -> res A * State.

Definition ret {A} (a : A) : M A := fun s => (Ok a, s).

Definition raise {A} (e : exn) : M A := fun s => (Exc e, s).

Definition bind {A B} (m : M A) (k : A -> M B) : M B :=
  fun s =>
    match m s with
    | (Ok a, s') => k a s'
    | (Exc e, s') => (Exc e, s')
    end.

(** [try: m  except Exception as e: h e]. *)
Definition try_except {A} (m : M A) (h : exn -> M A) : M A :=
  fun s =>
    match m s with
    | (Ok a, s') => (Ok a, s')
    | (Exc e, s') => h e s'
    end.

(** A pure expression that may raise. *)
Definition lift {A} (r : res A) : M A := fun s => (r, s).

Definition emit (e : event) : M unit :=
  fun s => (Ok tt, mkState (db s) (pending s) (db_ops s) (trace s ++ [e])).

Definition calls : M nat := fun s => (Ok (List.length (trace s)), s).

Definition get_db : M DB := fun s => (Ok (db s), s).

Definition get_pending : M (list obj) := fun s => (Ok (pending s), s).

End Run.
Import Run.

Notation "x <- m ;; k" := (Run.bind m (fun x => k))
  (at level 61, m at next level, right associativity).
Notation "m ;;; k" := (Run.bind m (fun _ => k))
  (at level 61, right associativity).

Module AIExtractionService.

(** The fallback of [_find_matching_division] for an empty taxonomy. *)
Definition default_division : division :=
  mkDivision 1 "General" "01 00 00" [].

(** First loop of [_find_matching_division]: exact match by id or code.
    [csi_division.get] is evaluated for every division looked at. *)
Fixpoint exact_match (csi_division : pyval) (available : list division)
  : res (option division) :=
  match available with
  | [] => Ok None
  | div :: rest =>
      i <-? get csi_division "id" PyNone ;
      if int_eq (div_id div) i then Ok (Some div)
      else
        c <-? get csi_division "code" PyNone ;
        if str_eq (div_code div) c then Ok (Some div)
        else exact_match csi_division rest
  end.

(** Second loop: substring match on lowercased names, either direction. *)
Fixpoint fuzzy_match (division_name : string) (available : list division)
  : option division :=
  match available with
  | [] => None
  | div :: rest =>
      if contains division_name (lower (div_name div))
         || contains (lower (div_name div)) division_name
      then Some div
      else fuzzy_match division_name rest
  end.

Definition _find_matching_division (csi_division : pyval)
    (available_divisions : list division) : res division :=
  e <-? exact_match csi_division available_divisions ;
  match e with
  | Some div => Ok div
  | None =>
      n <-? get csi_division "name" (PyStr "") ;
      division_name <-? lower_val n ;
      match fuzzy_match division_name available_divisions with
      | Some div => Ok div
      | None =>
          Ok (match available_divisions with
              | div :: _ => div
              | [] => default_division
              end)
      end
  end.


(** The literal [0.8]. *)
Definition lit_0_8 : spec_float := Float64.fdiv (Float64.of_Z 4) (Float64.of_Z 5).

(** [n + v] for an int [n]. *)
Definition add_int (n : Z) (v : pyval) : res pyval :=
  match v with
  | PyInt z => Ok (PyInt (n + z))
  | PyBool b => Ok (PyInt (n + Z.b2z b))
  | PyFloat f => Ok (PyFloat (Float64.fadd (Float64.of_Z n) f))
  | _ => Exc TypeError
  end.

(** [v > 0]. *)
Definition gt_zero (v : pyval) : res bool :=
  match v with
  | PyInt z => Ok (0 <? z)
  | PyBool b => Ok b
  | PyFloat f => Ok (Float64.positive f)
  | _ => Exc TypeError
  end.

(** [n / v] for an int [n]. *)
Definition div_int (n : Z) (v : pyval) : res spec_float :=
  match v with
  | PyInt z => Float64.truediv n z
  | PyBool b => Float64.truediv n (Z.b2z b)
  | PyFloat f =>
      match f with
      | S754_zero _ => Exc ZeroDivisionError
      | _ => Ok (Float64.fdiv (Float64.of_Z n) f)
      end
  | _ => Exc TypeError
  end.

(** [v >= k] for an int [k]. *)
Definition ge_int (v : pyval) (k : Z) : res bool :=
  match v with
  | PyInt z => Ok (k <=? z)
  | PyBool b => Ok (k <=? Z.b2z b)
  | PyFloat f => Ok (Float64.ge_Z f k)
  | _ => Exc TypeError
  end.

(** [requirements_count] as [_generate_combined_insights] reads it. *)
Definition requirements_count (nlp_result : nlp_result) : res pyval :=
  match nlp_result with
  | NLPSuccess data =>
      if truthy data then
        summary <-? get data "summary" (PyDict []) ;
        get summary "totalRequirements" (PyInt 0)
      else Ok (PyInt 0)
  | NLPFailure _ => Ok (PyInt 0)
  end.

(** [int((extracted_items_count / requirements_count) * 100)]. *)
Definition coverage_ratio (extracted_items_count : Z) (requirements_count : pyval)
  : res Z :=
  q <-? div_int extracted_items_count requirements_count ;
  Float64.to_int (Float64.fmul q (Float64.of_Z 100)).

(** The [try] body of [_generate_combined_insights]. *)
Definition combined_insights_body (smart_result : smart_result)
    (nlp_result : nlp_result) : res insights :=
  let extracted_items_count := Z.of_nat (List.length (extractedItems smart_result)) in
  requirements_count <-? requirements_count nlp_result ;
  total_data_points <-? add_int extracted_items_count requirements_count ;
  has_requirements <-? gt_zero requirements_count ;
  requirements_coverage <-?
    (if has_requirements && (0 <? extracted_items_count)
     then k <-? coverage_ratio extracted_items_count requirements_count ;
          Ok (Z.min 100 k)
     else Ok 0) ;
  ge15 <-? ge_int total_data_points 15 ;
  ge10 <-? ge_int total_data_points 10 ;
  ge5 <-? ge_int total_data_points 5 ;
  let quality :=
    if ge15 && (70 <=? requirements_coverage) then "excellent"
    else if ge10 && (50 <=? requirements_coverage) then "good"
    else if ge5 && (30 <=? requirements_coverage) then "fair"
    else "poor" in
  let recommended_actions :=
    (if extracted_items_count <? 5
     then ["Consider manual extraction for items not detected automatically"]
     else [])
    ++ (if requirements_coverage <? 50
        then ["Review document for additional specifications and requirements"]
        else [])
    ++ (if String.eqb quality "excellent"
        then ["Document analysis is comprehensive - consider this a template for similar drawings"]
        else []) in
  Ok (mkInsights total_data_points requirements_coverage recommended_actions quality).

Definition _generate_combined_insights (smart_result : smart_result)
    (nlp_result : nlp_result) : insights :=
  match combined_insights_body smart_result nlp_result with
  | Ok i => i
  | Exc _ =>
      mkInsights (PyInt 0) 0
        ["Analysis incomplete - review extraction results"] "poor"
  end.

Section WithWorld.

Variable w : World.

(** [json_str] of both parsers: the text from the first ['{'] to the last
    ['}'], [ValueError] when either is missing. *)
Definition json_str (response_text : string) : res string :=
  match find "{"%char response_text, rfind "}"%char response_text with
  | Some start_idx, Some end_idx => Ok (slice_incl response_text start_idx end_idx)
  | _, _ => Exc ValueError
  end.

Definition loads (s : string) : res pyval :=
  match json_loads w s with
  | Some v => Ok v
  | None => Exc JSONDecodeError
  end.

(** One turn of the loop of [_parse_smart_extraction_response]. *)
Definition process_item (available_divisions : list division) (raw : pyval)
  : res item :=
  csi <-? get raw "csiDivision" (PyDict []) ;
  division <-? _find_matching_division csi available_divisions ;
  item_name <-? get raw "itemName" (PyStr "Unnamed Item") ;
  item_category <-? get raw "category" (PyStr "material") ;
  procurement <-? get raw "procurementData" (PyDict []) ;
  loc <-? get raw "location" (PyDict []) ;
  conf <-? get loc "confidence" (PyFloat lit_0_8) ;
  Ok (mkItem item_name item_category
        (mkDivision (div_id division) (div_name division) (div_code division) [])
        procurement loc conf).

Definition failed_extraction (e : exn) : smart_result :=
  mkSmart false (Some e) []
    (PyDict [("totalItemsFound", PyInt 0); ("divisionsFound", PyInt 0)]).

Definition _parse_smart_extraction_response (response_text : string)
    (available_divisions : list division) : smart_result :=
  let body :=
    s <-? json_str response_text ;
    parsed_response <-? loads s ;
    raw_items <-? get parsed_response "extractedItems" (PyList []) ;
    raw_list <-? iter raw_items ;
    processed_items <-? map_res (process_item available_divisions) raw_list ;
    summary <-? get parsed_response "summary" (PyDict []) ;
    Ok (mkSmart true None processed_items summary) in
  match body with
  | Ok r => r
  | Exc e => failed_extraction e
  end.

Definition empty_nlp : pyval :=
  PyDict [("requirements", PyList []); ("compliance", PyList []);
          ("document_context", PyDict []);
          ("summary", PyDict [("totalRequirements", PyInt 0);
                              ("criticalRequirements", PyInt 0);
                              ("complianceItemsIdentified", PyInt 0);
                              ("recommendedActions", PyList [])])].

Definition _parse_nlp_response (response_text : string) : pyval :=
  match (s <-? json_str response_text ; loads s) with
  | Ok v => v
  | Exc _ => empty_nlp
  end.

(** [perform_ocr]: any failure of the OCR stack yields the empty text. *)
Definition perform_ocr (image_path : string) : M string :=
  emit (EvOCR image_path) ;;;
  match image_to_string w image_path with
  | Ok text => ret (strip text)
  | Exc _ => ret ""
  end.

(** The taxonomy lines of [_build_smart_extraction_prompt]. *)
Definition division_lines (available_divisions : list division)
  : list (string * string) :=
  map (fun div => (div_code div, div_name div)) (firstn 20 available_divisions).

(** The metadata values of [_build_user_extraction_prompt]. *)
Definition metadata_text (drawing_metadata : list (string * pyval))
  : option (pyval * pyval * pyval * pyval) :=
  match drawing_metadata with
  | [] => None
  | _ =>
      let field k := match lookup drawing_metadata k with
                     | Some v => v
                     | None => PyStr "Unknown"
                     end in
      Some (field "sheetNumber", field "sheetName", field "scale", field "discipline")
  end.

Definition smart_extraction_analysis (ocr_text image_base64 : string)
    (available_divisions : list division)
    (drawing_metadata : list (string * pyval)) : M smart_result :=
  let request := SmartRequest (division_lines available_divisions)
                   (metadata_text drawing_metadata) ocr_text image_base64 4000 in
  n <- calls ;;
  emit (EvLLM request) ;;;
  match messages_create w n request with
  | Ok response_text =>
      ret (_parse_smart_extraction_response response_text available_divisions)
  | Exc e => ret (failed_extraction e)
  end.

Definition enhanced_nlp_analysis (ocr_text image_base64 : string) : M nlp_result :=
  let request := NLPRequest ocr_text 3000 in
  n <- calls ;;
  emit (EvLLM request) ;;;
  match messages_create w n request with
  | Ok response_text => ret (NLPSuccess (_parse_nlp_response response_text))
  | Exc e => ret (NLPFailure e)
  end.

Definition comprehensive_extraction (image_path : string)
    (available_divisions : list division)
    (drawing_metadata : list (string * pyval)) : M extraction_result :=
  try_except
    (ocr_text <- perform_ocr image_path ;;
     emit (EvReadImage image_path) ;;;
     image_base64 <- lift (read_base64 w image_path) ;;
     smart_extraction_result <-
       smart_extraction_analysis ocr_text image_base64 available_divisions
         drawing_metadata ;;
     enhanced_nlp_result <- enhanced_nlp_analysis ocr_text image_base64 ;;
     let combined_insights :=
       _generate_combined_insights smart_extraction_result enhanced_nlp_result in
     n <- calls ;;
     ret (Comprehensive smart_extraction_result enhanced_nlp_result
            combined_insights
            (mkProcessing (clock w n) (String.length ocr_text))))
    (fun e => n <- calls ;; ret (ExtractionError e (clock w n))).

End WithWorld.

End AIExtractionService.

(* ===================================================================== *)
(** ** The database session *)
(* ===================================================================== *)

Module Session.

Section WithWorld.

Variable w : World.

(** One round trip to the database: it raises when the world says that
    this operation fails. *)
Definition db_op : M unit :=
  fun s =>
    let s' := mkState (db s) (pending s) (S (db_ops s)) (trace s) in
    if db_fault w (db_ops s) then (Exc DBError, s') else (Ok tt, s').

(** [db.session.add(o)]. *)
Definition add (o : obj) : M unit :=
  fun s => (Ok tt, mkState (db s) (pending s ++ [o]) (db_ops s) (trace s)).

(** [db.session.commit()]: all pending objects are written, or it raises and
    none is. *)
Definition commit : M unit :=
  db_op ;;;
  (fun s => (Ok tt, mkState (flush (db s) (pending s)) [] (db_ops s) (trace s))).

(** [db.session.rollback()]. *)
Definition rollback : M unit :=
  fun s => (Ok tt, mkState (db s) [] (db_ops s) (trace s)).

(** [User.query.get(user_id)]. *)
Definition query_user (user_id : Z) : M (option Z) :=
  db_op ;;;
  d <- get_db ;;
  ret (List.find (fun u => u =? user_id) (users d)).

(** [user.get_credit_balance()]: the query sees the committed rows and the
    session's own pending ones. *)
Definition get_credit_balance (user_id : Z) : M Q :=
  db_op ;;;
  d <- get_db ;;
  p <- get_pending ;;
  ret (sum_amounts
         (transactions_of user_id
            (ai_credit_transactions d ++ pending_transactions p))).

(** [Drawing.query.filter_by(id=drawing_id, user_id=user_id).first()]. *)
Definition query_drawing (id user_id : Z) : M (option Drawing) :=
  db_op ;;;
  d <- get_db ;;
  ret (List.find (fun g => (drawing_id g =? id) && (drawing_user_id g =? user_id))
         (drawings d)).

(** [[div.to_dict() for div in
      ConstructionDivision.query.filter_by(is_active=True).all()]]. *)
Definition query_divisions_data : M (list division) :=
  db_op ;;;
  d <- get_db ;;
  ret (map to_dict (filter is_active (construction_divisions d))).

(** [DrawingProfile.query.filter_by(drawing_id=drawing_id).first()]. *)
Definition query_profile (id : Z) : M (option DrawingProfile) :=
  db_op ;;;
  d <- get_db ;;
  ret (List.find (fun p => profile_drawing_id p =? id) (drawing_profiles d)).

End WithWorld.

End Session.

(* ===================================================================== *)
(** ** [credit_service.py] *)
(* ===================================================================== *)

Module CreditService.

Section WithWorld.

Variable w : World.

Definition has_sufficient_credits (user_id : Z) (estimated_cost : Q) : M bool :=
  try_except
    (user <- Session.query_user w user_id ;;
     match user with
     | None => ret false
     | Some _ =>
         current_balance <- Session.get_credit_balance w user_id ;;
         ret (Qle_bool estimated_cost current_balance)
     end)
    (fun _ => ret false).

(** [operation or 'usage']. *)
Definition operation_or_usage (operation : option string) : string :=
  match operation with
  | Some o => if String.eqb o "" then "usage" else o
  | None => "usage"
  end.

(** [tokens_used or 0]. *)
Definition tokens_or_zero (tokens_used : option Z) : Z :=
  match tokens_used with
  | Some t => t
  | None => 0
  end.

Definition deduct_credits (user_id : Z) (amount : Q) (description : string)
    (operation : option string) (tokens_used : option Z)
  : M (option AICreditTransaction) :=
  try_except
    (user <- Session.query_user w user_id ;;
     match user with
     | None => ret None
     | Some _ =>
         current_balance <- Session.get_credit_balance w user_id ;;
         let new_balance := (current_balance - amount)%Q in
         let transaction :=
           mkTransaction user_id "usage" (- amount)%Q new_balance description
             (operation_or_usage operation) (tokens_or_zero tokens_used) in
         Session.add (ObjTransaction transaction) ;;;
         Session.commit w ;;;
         ret (Some transaction)
     end)
    (fun _ => Session.rollback ;;; ret None).

End WithWorld.

End CreditService.

(* ===================================================================== *)
(** ** [blueprints/ai_extraction.py] *)
(* ===================================================================== *)

Module Blueprint.

(** One entry of ['pageResults']. *)
Record page_summary : Type := mkPageSummary {
  ps_page : Z;
  ps_extractedItems : nat;
  ps_requirements : nat;
  ps_cost : Q;
  ps_tokensUsed : Z
}.

(** What an endpoint answers: an error body with its status, or one of the
    two success bodies (status 200). *)
Inductive response : Type :=
| JsonError (status : Z) (error : string)
| SingleOk (savedItemsCount : nat) (cost : Q) (tokens : Z) (creditBalance : Q)
| BulkOk (totalPages : Z) (pageResults : list page_summary)
         (totalItemsExtracted : nat) (totalCost : Q) (totalTokensUsed : Z)
         (creditBalance : Q).

Definition status_code (r : response) : Z :=
  match r with
  | JsonError status _ => status
  | SingleOk _ _ _ _ => 200
  | BulkOk _ _ _ _ _ _ => 200
  end.

(** [os.path.join(UPLOAD_FOLDER, 'pages', f'page.{page}.png')], below the
    upload folder. *)
Definition page_image_path (page : Z) : string :=
  ("pages/page." ++ str_of_int page ++ ".png")%string.

(** [tokens_used = max(500, int(processing_time * 200))]. *)
Definition tokens_for (processing_time : spec_float) : res Z :=
  k <-? Float64.to_int (Float64.fmul processing_time (Float64.of_Z 200)) ;
  Ok (Z.max 500 k).

(** [tokens_used * 0.0001], as the ledger column holds it. *)
Definition credit_cost (tokens_used : Z) : Q :=
  (inject_Z tokens_used * (1 # 10000))%Q.

(** [d.update({k: v})]. *)
Fixpoint update (d : list (string * pyval)) (k : string) (v : pyval)
  : list (string * pyval) :=
  match d with
  | [] => [(k, v)]
  | (k', v') :: d' =>
      if String.eqb k' k then (k, v) :: d' else (k', v') :: update d' k v
  end.

(** [next((sheet for sheet in sheet_meta if sheet.get('pageNumber') == page),
    None)]. *)
Fixpoint find_sheet (page : Z) (sheet_meta : list pyval) : res (option pyval) :=
  match sheet_meta with
  | [] => Ok None
  | sheet :: rest =>
      n <-? get sheet "pageNumber" PyNone ;
      if int_eq page n then Ok (Some sheet) else find_sheet page rest
  end.

Definition or_default (d : list (string * pyval)) (k : string) (default : pyval)
  : pyval :=
  match lookup d k with
  | Some v => v
  | None => default
  end.

(** The NLP context of one item (both endpoints build it alike). *)
Definition nlp_context (it : item) (enhanced_nlp : nlp_result)
  : res (option (list pyval * list pyval)) :=
  match enhanced_nlp with
  | NLPFailure _ => Ok None
  | NLPSuccess nlp_data =>
      reqs <-? get nlp_data "requirements" (PyList []) ;
      req_list <-? iter reqs ;
      requirements <-?
        filter_res (fun req =>
                      name <-? lower_val (itemName it) ;
                      content <-? get req "content" (PyStr "") ;
                      content_l <-? lower_val content ;
                      Ok (contains name content_l)) req_list ;
      comps <-? get nlp_data "compliance" (PyList []) ;
      comp_list <-? iter comps ;
      compliance <-?
        filter_res (fun comp =>
                      r <-? get comp "requirement" (PyStr "") ;
                      r_l <-? lower_val r ;
                      in_str (category it) r_l) comp_list ;
      Ok (Some (requirements, compliance))
  end.

(** [len(page_result.get('enhancedNLP', {}).get('data', {})
          .get('requirements', []))]. *)
Definition requirements_len (enhanced_nlp : nlp_result) : res nat :=
  match enhanced_nlp with
  | NLPFailure _ => Ok 0%nat
  | NLPSuccess nlp_data =>
      reqs <-? get nlp_data "requirements" (PyList []) ;
      len reqs
  end.

Definition model_name : string := "claude-sonnet-4-20250514".

(** The row built for one item; [loc] is the [source_location]. *)
Definition make_row (drawing user : Z) (it : item)
    (ctx : option (list pyval * list pyval)) (loc : source_loc)
    (processing_time : spec_float) : ExtractedData :=
  mkExtractedData drawing user (div_id (csiDivision it)) "comprehensive_extraction"
    loc
    (mkExtractionData (itemName it) (category it) (location it)
       (procurementData it) (confidence it) ctx)
    (confidence it) "comprehensive" model_name processing_time.

(** Body of the per-item [try] of the single-page endpoint. *)
Definition single_page_row (drawing user page : Z) (enhanced_nlp : nlp_result)
    (processing_time : spec_float) (it : item) : res ExtractedData :=
  ctx <-? nlp_context it enhanced_nlp ;
  cx <-? get (location it) "coordinates" (PyDict []) ;
  x <-? get cx "x" (PyInt 0) ;
  cy <-? get (location it) "coordinates" (PyDict []) ;
  y <-? get cy "y" (PyInt 0) ;
  Ok (make_row drawing user it ctx (PageAt page x y) processing_time).

(** Body of the per-item [try] of [_save_extraction_results]. *)
Definition bulk_row (drawing user page : Z) (enhanced_nlp : nlp_result)
    (processing_time : spec_float) (it : item) : res ExtractedData :=
  ctx <-? nlp_context it enhanced_nlp ;
  Ok (make_row drawing user it ctx (PageOnly page) processing_time).

(** The item loop of either endpoint: a row that cannot be built is logged
    and skipped.  Returns [saved_items]. *)
Fixpoint save_items (row_of : item -> res ExtractedData) (items : list item)
  : M (list ExtractedData) :=
  match items with
  | [] => ret []
  | it :: rest =>
      match row_of it with
      | Ok row =>
          Session.add (ObjRow row) ;;;
          saved <- save_items row_of rest ;;
          ret (row :: saved)
      | Exc _ => save_items row_of rest
      end
  end.

(** Names bound at module level of the blueprint. *)
Definition module_globals : list string :=
  ["os"; "json"; "Blueprint"; "request"; "jsonify"; "current_app";
   "login_required"; "current_user"; "secure_filename"; "db"; "Drawing";
   "ExtractedData"; "ConstructionDivision"; "AICreditTransaction";
   "DrawingProfile"; "AIExtractionService"; "CreditService"; "ai_bp";
   "allowed_file"; "comprehensive_extract_single_page";
   "comprehensive_extract_all_pages"; "extraction_status";
   "get_feature_toggles"].

(** Locals of [comprehensive_extract_all_pages] that are bound when the page
    loop runs.  [_save_extraction_results] is defined below the function's
    last [return] and is never bound. *)
Definition bulk_locals : list string :=
  ["drawing_id"; "drawing"; "total_pages"; "divisions"; "divisions_data";
   "credit_service"; "estimated_cost"; "extraction_service"; "all_results";
   "total_saved_items"; "total_cost"; "total_tokens"; "page";
   "page_image_path"; "drawing_metadata"; "page_result"].

(** Evaluating a name: [NameError] when no scope binds it. *)
Definition load_name (scopes : list string) (name : string) : M unit :=
  if existsb (String.eqb name) scopes then ret tt else raise NameError.

Section WithWorld.

Variable w : World.

(** [AIExtractionService()]: the constructor wants an API key. *)
Definition new_extraction_service : M unit :=
  if api_key w then ret tt else raise ValueError.

(** Lines 51-73 of the single-page endpoint: the metadata for the prompt. *)
Definition prepare_metadata (drawing : Drawing) (profile : option DrawingProfile)
    (page : Z) : res (list (string * pyval)) :=
  let of_profile f := match profile with Some p => f p | None => PyNone end in
  let sheet := PyStr ("Sheet " ++ str_of_int page)%string in
  let drawing_metadata :=
    [("sheetNumber", sheet); ("sheetName", PyStr (drawing_name drawing));
     ("discipline", of_profile discipline); ("scale", of_profile scale);
     ("industry", of_profile industry)] in
  if truthy (sheet_metadata drawing) then
    let attempt :=
      sheet_meta <-?
        match sheet_metadata drawing with
        | PyList l => Ok (PyList l)
        | PyStr s => AIExtractionService.loads w s
        | _ => Exc TypeError
        end ;
      sheets <-? iter sheet_meta ;
      page_meta <-? find_sheet page sheets ;
      match page_meta with
      | Some (PyDict m) =>
          if truthy (PyDict m) then
            Ok (update (update (update (update drawing_metadata
                  "sheetNumber" (or_default m "sheetNumber" sheet))
                  "sheetName" (or_default m "sheetTitle" (PyStr (drawing_name drawing))))
                  "scale" (or_default m "scale" PyNone))
                  "discipline" (or_default m "discipline" PyNone))
          else Ok drawing_metadata
      | _ => Ok drawing_metadata
      end in
    match attempt with
    | Ok m => Ok m
    | Exc JSONDecodeError | Exc AttributeError => Ok drawing_metadata
    | Exc e => Exc e
    end
  else Ok drawing_metadata.

Definition comprehensive_extract_single_page (current_user drawing_id page : Z)
  : M response :=
  try_except
    (drawing <- Session.query_drawing w drawing_id current_user ;;
     match drawing with
     | None => ret (JsonError 404 "Drawing not found or access denied")
     | Some drawing =>
         divisions_data <- Session.query_divisions_data w ;;
         profile <- Session.query_profile w drawing_id ;;
         drawing_metadata <- lift (prepare_metadata drawing profile page) ;;
         if negb (path_exists w (page_image_path page))
         then ret (JsonError 404 "Drawing image not found")
         else
           new_extraction_service ;;;
           enough <- CreditService.has_sufficient_credits w current_user (1 # 4) ;;
           if negb enough
           then ret (JsonError 402 "Insufficient AI credits")
           else
             extraction_result <-
               AIExtractionService.comprehensive_extraction w
                 (page_image_path page) divisions_data drawing_metadata ;;
             match extraction_result with
             | ExtractionError _ _ => ret (JsonError 500 "Extraction failed")
             | Comprehensive smart_extraction enhanced_nlp _ proc =>
                 if negb (smart_success smart_extraction)
                 then ret (JsonError 500 "Extraction failed")
                 else
                   let processing_time := totalTime proc in
                   tokens_used <- lift (tokens_for processing_time) ;;
                   let cost := credit_cost tokens_used in
                   transaction <-
                     CreditService.deduct_credits w current_user cost
                       ("Comprehensive extraction (OCR+AI+NLP) - "
                          ++ str_of_int tokens_used ++ " tokens")%string
                       (Some "comprehensive_extraction") (Some tokens_used) ;;
                   match transaction with
                   | None => ret (JsonError 500 "Credit deduction failed")
                   | Some _ =>
                       saved_items <-
                         save_items
                           (single_page_row drawing_id current_user page
                              enhanced_nlp processing_time)
                           (extractedItems smart_extraction) ;;
                       Session.commit w ;;;
                       credit_balance <- Session.get_credit_balance w current_user ;;
                       ret (SingleOk (List.length saved_items) cost tokens_used
                              credit_balance)
                   end
             end
     end)
    (fun _ =>
       Session.rollback ;;;
       ret (JsonError 500 "Comprehensive extraction failed")).

(** The running totals of the bulk endpoint. *)
Record totals : Type := mkTotals {
  all_results : list page_summary;
  total_saved_items : nat;
  total_cost : Q;
  total_tokens : Z
}.

(** Body of the [try] inside the page loop of
    [comprehensive_extract_all_pages]. *)
Definition bulk_page (current_user drawing_id : Z) (drawing : Drawing)
    (divisions_data : list division) (acc : totals) (page : Z) : M totals :=
  if negb (path_exists w (page_image_path page)) then ret acc
  else
    let drawing_metadata :=
      [("sheetNumber", PyStr ("Sheet " ++ str_of_int page)%string);
       ("sheetName",
        PyStr (drawing_name drawing ++ " - Page " ++ str_of_int page)%string)] in
    page_result <-
      AIExtractionService.comprehensive_extraction w (page_image_path page)
        divisions_data drawing_metadata ;;
    match page_result with
    | ExtractionError _ _ => ret acc
    | Comprehensive smart_extraction enhanced_nlp _ proc =>
        if negb (smart_success smart_extraction) then ret acc
        else
          load_name (bulk_locals ++ module_globals) "self" ;;;
          page_saved_items <-
            save_items
              (bulk_row drawing_id current_user page enhanced_nlp (totalTime proc))
              (extractedItems smart_extraction) ;;
          tokens_used <- lift (tokens_for (totalTime proc)) ;;
          let cost := credit_cost tokens_used in
          _ <- CreditService.deduct_credits w current_user cost
                 ("Bulk comprehensive extraction - Page " ++ str_of_int page
                    ++ " - " ++ str_of_int tokens_used ++ " tokens")%string
                 (Some "bulk_comprehensive_extraction") None ;;
          requirements <- lift (requirements_len enhanced_nlp) ;;
          ret (mkTotals
                 (all_results acc ++
                    [mkPageSummary page
                       (List.length (extractedItems smart_extraction))
                       requirements cost tokens_used])
                 (total_saved_items acc + List.length page_saved_items)%nat
                 (total_cost acc + cost)%Q
                 (total_tokens acc + tokens_used))
    end.

(** The page loop: an exception in a page is logged and the loop goes on. *)
Fixpoint bulk_pages (current_user drawing_id : Z) (drawing : Drawing)
    (divisions_data : list division) (acc : totals) (pages : list Z) : M totals :=
  match pages with
  | [] => ret acc
  | page :: rest =>
      acc' <- try_except
                (bulk_page current_user drawing_id drawing divisions_data acc page)
                (fun _ => ret acc) ;;
      bulk_pages current_user drawing_id drawing divisions_data acc' rest
  end.

(** [range(1, total_pages + 1)]. *)
Definition page_range (total_pages : Z) : list Z :=
  map Z.of_nat (seq 1 (Z.to_nat total_pages)).

(** [drawing.total_pages or 1]. *)
Definition pages_or_one (drawing : Drawing) : Z :=
  match total_pages drawing with
  | Some n => if n =? 0 then 1 else n
  | None => 1
  end.

Definition comprehensive_extract_all_pages (current_user drawing_id : Z)
  : M response :=
  try_except
    (drawing <- Session.query_drawing w drawing_id current_user ;;
     match drawing with
     | None => ret (JsonError 404 "Drawing not found or access denied")
     | Some drawing =>
         let total_pages := pages_or_one drawing in
         divisions_data <- Session.query_divisions_data w ;;
         let estimated_cost := (inject_Z total_pages * (1 # 4))%Q in
         enough <- CreditService.has_sufficient_credits w current_user estimated_cost ;;
         if negb enough
         then ret (JsonError 402 "Insufficient AI credits for bulk processing")
         else
           new_extraction_service ;;;
           t <- bulk_pages current_user drawing_id drawing divisions_data
                  (mkTotals [] 0%nat 0%Q 0) (page_range total_pages) ;;
           Session.commit w ;;;
           credit_balance <- Session.get_credit_balance w current_user ;;
           ret (BulkOk total_pages (all_results t) (total_saved_items t)
                  (total_cost t) (total_tokens t) credit_balance)
     end)
    (fun _ =>
       Session.rollback ;;;
       ret (JsonError 500 "Bulk comprehensive extraction failed")).

End WithWorld.

End Blueprint.

(* ===================================================================== *)
(** ** Statements in the words of the specification *)
(* ===================================================================== *)

Module Spec.

Import AIExtractionService.

(** A division handed back as the [csiDivision] argument: its id, code and
    name. *)
Definition as_csi (div : division) : pyval :=
  PyDict [("id", PyInt (div_id div)); ("code", PyStr (div_code div));
          ("name", PyStr (div_name div))].

(** "Exact match on id or code" against the entries [d] of a dict. *)
Definition exact (d : list (string * pyval)) (div : division) : bool :=
  int_eq (div_id div) (Blueprint.or_default d "id" PyNone)
  || str_eq (div_code div) (Blueprint.or_default d "code" PyNone).

(** "Substring match on lowercased names in either direction". *)
Definition fuzzy (division_name : string) (div : division) : bool :=
  contains division_name (lower (div_name div))
  || contains (lower (div_name div)) division_name.

(** The name a dict carries is a string, or it carries none. *)
Definition name_is_text (d : list (string * pyval)) : Prop :=
  match lookup d "name" with
  | Some (PyStr _) | None => True
  | Some _ => False
  end.

(** The lowercased name of such a dict ([''] when there is none). *)
Definition lowered_name (d : list (string * pyval)) : string :=
  match lookup d "name" with
  | Some (PyStr s) => lower s
  | _ => ""
  end.

(** "Exact first, then substring, then the first element", with the fixed
    default for an empty list. *)
Definition matching_division (d : list (string * pyval))
    (available : list division) : division :=
  match List.find (exact d) available with
  | Some div => div
  | None =>
      match List.find (fuzzy (lowered_name d)) available with
      | Some div => div
      | None => hd default_division available
      end
  end.






(** "'excellent' when totalDataPoints >= 15 and coverage >= 70, else 'good'
    when totalDataPoints >= 10 and coverage >= 50, else 'fair' when
    totalDataPoints >= 5 and coverage >= 30, else 'poor'". *)
Definition quality (total_data_points requirements_coverage : Z) : string :=
  if (15 <=? total_data_points) && (70 <=? requirements_coverage) then "excellent"
  else if (10 <=? total_data_points) && (50 <=? requirements_coverage) then "good"
  else if (5 <=? total_data_points) && (30 <=? requirements_coverage) then "fair"
  else "poor".

Section WithWorld.

Variable w : World.

(** The text [perform_ocr] hands on. *)
Definition ocr_text_of (image_path : string) : string :=
  match image_to_string w image_path with
  | Ok text => strip text
  | Exc _ => ""
  end.

(** The smart-extraction result when the request is the [n]-th outside
    call. *)
Definition smart_answer (n : nat) (request : llm_request)
    (available_divisions : list division) : smart_result :=
  match messages_create w n request with
  | Ok response_text =>
      _parse_smart_extraction_response w response_text available_divisions
  | Exc e => failed_extraction e
  end.

(** The NLP result when the request is the [n]-th outside call. *)
Definition nlp_answer (n : nat) (request : llm_request) : nlp_result :=
  match messages_create w n request with
  | Ok response_text => NLPSuccess (_parse_nlp_response w response_text)
  | Exc e => NLPFailure e
  end.

End WithWorld.

(** The rows the item loop saves: those that can be built. *)
Definition saved_rows (row_of : item -> res ExtractedData) (items : list item)
  : list ExtractedData :=
  flat_map (fun it => match row_of it with Ok row => [row] | Exc _ => [] end) items.

(** The balance of a user: the sum of the amounts of all their committed
    transactions. *)
Definition credit_balance (s : State) (user : Z) : Q :=
  sum_amounts (transactions_of user (ai_credit_transactions (db s))).


(** The drawing a request names, if the user owns it. *)
Definition owned_drawing (s : State) (user drawing_id : Z) : option Drawing :=
  List.find (fun g => (Models.drawing_id g =? drawing_id)
                      && (drawing_user_id g =? user))
    (drawings (db s)).

(** The transactions a session in state [s] sees: the committed ones and
    its own pending ones. *)
Definition visible_transactions (s : State) : list AICreditTransaction :=
  ai_credit_transactions (db s) ++ pending_transactions (pending s).

(** The estimate of the bulk endpoint for a drawing: 0.25 a page. *)
Definition bulk_estimate (drawing : Drawing) : Q :=
  (inject_Z (Blueprint.pages_or_one drawing) * (1 # 4))%Q.




(** A state with another trace. *)
Definition with_trace (s : State) (t : list event) : State :=
  mkState (db s) (pending s) (db_ops s) t.


End Spec.

(* ===================================================================== *)
(** ** Concrete inputs *)
(* ===================================================================== *)

Module Examples.

Definition concrete : division := mkDivision 3 "Concrete" "03 00 00" [].
Definition masonry : division := mkDivision 4 "Masonry" "04 00 00" [].
Definition metals : division := mkDivision 5 "Metals" "05 00 00" [].

Definition taxonomy : list division := [concrete; masonry; metals].

(** Two entries that share a code (no table with the unique constraint on
    [code] holds such a pair, a caller's list can). *)
Definition masonry_dup : division := mkDivision 4 "Masonry" "03 00 00" [].
Definition shared_code : list division := [concrete; masonry_dup].

(** [{"name": "masonry units"}] *)
Definition csi_by_name : list (string * pyval) := [("name", PyStr "masonry units")].

(** [{"id": 4}] *)
Definition csi_id_4 : pyval := PyDict [("id", PyInt 4)].

(** [{"id": 99, "name": null}] *)
Definition csi_null_name : pyval := PyDict [("id", PyInt 99); ("name", PyNone)].



(** NLP data reporting [r] total requirements. *)
Definition nlp_summary (r : Z) : list (string * pyval) :=
  [("totalRequirements", PyInt r)].

Definition nlp_data (r : Z) : list (string * pyval) :=
  [("requirements", PyList []); ("summary", PyDict (nlp_summary r))].

(** The decoded replies of the hosted model used below. *)
Definition smart_json : pyval :=
  PyDict
    [("extractedItems",
      PyList
        [PyDict
           [("itemName", PyStr "Steel W18x35 Beam");
            ("category", PyStr "material");
            ("csiDivision",
             PyDict [("code", PyStr "05 00 00"); ("name", PyStr "Metals");
                     ("id", PyInt 5)]);
            ("procurementData",
             PyDict [("quantity", PyStr "12"); ("unit", PyStr "EA")]);
            ("location",
             PyDict [("coordinates", PyDict [("x", PyInt 120); ("y", PyInt 80)]);
                     ("confidence", PyFloat (Float64.fdiv (Float64.of_Z 9)
                                                         (Float64.of_Z 10)))])]]);
     ("summary", PyDict [("totalItemsFound", PyInt 1); ("divisionsFound", PyInt 1)])].

Definition nlp_json : pyval :=
  PyDict
    [("requirements",
      PyList
        [PyDict [("id", PyStr "R1");
                 ("content", PyStr "Each steel W18x35 beam shall be shop primed");
                 ("category", PyStr "structural")]]);
     ("compliance", PyList []);
     ("summary", PyDict [("totalRequirements", PyInt 1)])].

(** [json.loads] on the two reply bodies. *)
Definition decode (s : string) : option pyval :=
  if String.eqb s "{smart-extraction reply}" then Some smart_json
  else if String.eqb s "{nlp reply}" then Some nlp_json
  else None.

(** The model answers each kind of request with a sentence around the
    body. *)
Definition reply (n : nat) (request : llm_request) : res string :=
  match request with
  | SmartRequest _ _ _ _ _ => Ok "Here is the JSON: {smart-extraction reply}"
  | NLPRequest _ _ => Ok "{nlp reply}"
  end.

(** 2.51 seconds. *)
Definition seconds_2_51 : spec_float :=
  Float64.fdiv (Float64.of_Z 251) (Float64.of_Z 100).



(** A world where page 1 is rendered, every service answers, replies are
    decoded by [loads], an extraction takes [seconds], and the database
    fails exactly at the operations [faults]. *)
Definition world_decoding (loads : string -> option pyval)
    (seconds : spec_float) (faults : list nat) : World :=
  mkWorld loads
    (fun _ => Ok "  W18x35 BEAM SCHEDULE  ")
    (fun _ => Ok "aW1hZ2U=")
    reply
    (fun _ => seconds)
    true
    (String.eqb (Blueprint.page_image_path 1))
    (fun k => existsb (Nat.eqb k) faults).

Definition world_with (seconds : spec_float) (faults : list nat) : World :=
  world_decoding decode seconds faults.


Definition world_failing (faults : list nat) : World :=
  world_with seconds_2_51 faults.

Definition world : World := world_failing [].


(** User 7 owns drawing 10 (two pages) and has bought 10 credits. *)
Definition purchase : AICreditTransaction :=
  mkTransaction 7 "purchase" 10 10 "Credit purchase" "purchase" 0.

Definition database (ledger : list AICreditTransaction) : DB :=
  mkDB [7] [mkDrawing 10 7 "Tower A" (Some 2) PyNone] []
    (map (fun d => mkConstructionDivision d true) taxonomy)
    ledger [].

Definition start : State := mkState (database [purchase]) [] 0 [].





End Examples.

(* ===================================================================== *)
(** ** Uploads: [allowed_file] and its configuration *)
(* ===================================================================== *)

Module Uploads.

(** [Config.ALLOWED_EXTENSIONS] of [config.py]. *)
Definition ALLOWED_EXTENSIONS : list string := ["pdf"; "png"; "jpg"; "jpeg"].

(** [s.rsplit('.', 1)[1]]: the text after the last dot; [None] stands for
    the [IndexError] of a string without a dot. *)
Fixpoint after_last_dot (s : string) : option string :=
  match s with
  | EmptyString => None
  | String c s' =>
      match after_last_dot s' with
      | Some ext => Some ext
      | None => if Ascii.eqb c "."%char then Some s' else None
      end
  end.

(** [allowed_file], with [current_app.config['ALLOWED_EXTENSIONS']] as
    [allowed]. *)
Definition allowed_file (allowed : list string) (filename : string) : bool :=
  contains "." filename
  && match after_last_dot filename with
     | Some ext => existsb (String.eqb (lower ext)) allowed
     | None => false
     end.

End Uploads.

(* ===================================================================== *)
(** ** Further notions used in statements *)
(* ===================================================================== *)

Module Terms.

(** The character [c] occurs in [s]. *)
Fixpoint occurs (c : ascii) (s : string) : bool :=
  match s with
  | EmptyString => false
  | String a s' => Ascii.eqb a c || occurs c s'
  end.

(** A division as an item carries it: id, name and code only. *)
Definition tag_of (div : division) : division :=
  mkDivision (div_id div) (div_name div) (div_code div) [].

(** The four grades of the quality heuristic. *)
Definition is_grade (q : string) : Prop :=
  q = "excellent" \/ q = "good" \/ q = "fair" \/ q = "poor".


(** A double that is not negative (NaN apart). *)
Definition unsigned (f : spec_float) : Prop :=
  match f with
  | S754_zero s | S754_infinity s | S754_finite s _ _ => s = false
  | S754_nan => True
  end.

(** First and last character of a string. *)
Definition first_char (s : string) : option ascii :=
  match s with
  | EmptyString => None
  | String c _ => Some c
  end.

Fixpoint last_char (s : string) : option ascii :=
  match s with
  | EmptyString => None
  | String c s' =>
      match last_char s' with
      | Some l => Some l
      | None => Some c
      end
  end.

(** A string with no whitespace at either end. *)
Definition trimmed (s : string) : Prop :=
  (forall c, first_char s = Some c -> is_space c = false)
  /\ (forall c, last_char s = Some c -> is_space c = false).

(** An uppercase ASCII letter, and a string that holds one. *)
Definition is_upper (c : ascii) : bool :=
  let n := nat_of_ascii c in (65 <=? n)%nat && (n <=? 90)%nat.

Fixpoint has_upper (s : string) : bool :=
  match s with
  | EmptyString => false
  | String c s' => is_upper c || has_upper s'
  end.




End Terms.

(* ===================================================================== *)
(** ** Further concrete inputs *)
(* ===================================================================== *)

Module Cases.

(** A usage transaction of user 8. *)
Definition other_usage : AICreditTransaction :=
  mkTransaction 8 "usage" (- (1 # 2)) (19 # 2) "Comprehensive extraction"
    "comprehensive_extraction" 5000.

(** A second purchase of user 7. *)
Definition top_up : AICreditTransaction :=
  mkTransaction 7 "purchase" 5 15 "Credit purchase" "purchase" 0.

(** Users 7 and 8, both with transactions. *)
Definition two_users : State :=
  mkState (mkDB [7; 8] [mkDrawing 10 7 "Tower A" (Some 2) PyNone] []
             (map (fun d => mkConstructionDivision d true) Examples.taxonomy)
             [Examples.purchase; other_usage] [])
    [] 0 [].

(** A drawing whose sheet metadata names page 1 ["A-101"], without scale. *)
Definition sheet_entry : list (string * pyval) :=
  [("pageNumber", PyInt 1); ("sheetNumber", PyStr "A-101");
   ("sheetTitle", PyStr "Floor plan")].

Definition drawing_with_sheets : Drawing :=
  mkDrawing 10 7 "Tower A" (Some 2) (PyList [PyDict sheet_entry]).

Definition profile : DrawingProfile :=
  mkProfile 10 (PyStr "structural") (PyStr "1:100") (PyStr "commercial").

(** An item without coordinates. *)
Definition unplaced_item : item :=
  mkItem (PyStr "AHU-1") (PyStr "equipment") Examples.metals (PyDict [])
    (PyDict [("confidence", PyFloat AIExtractionService.lit_0_8)])
    (PyFloat AIExtractionService.lit_0_8).

(** An item whose category is capitalised, and an analysis with a
    compliance entry on materials. *)
Definition capitalised_item : item :=
  mkItem (PyStr "AHU-1") (PyStr "Material") Examples.metals (PyDict [])
    (PyDict []) (PyFloat AIExtractionService.lit_0_8).

Definition compliance_data : pyval :=
  PyDict [("requirements",
           PyList [PyDict [("content", PyStr "Provide AHU-1 per schedule")];
                   PyDict [("content", PyStr "Seal all penetrations")]]);
          ("compliance",
           PyList [PyDict [("requirement", PyStr "Material safety data sheets")]])].

End Cases.

(* ===================================================================== *)
(** ** Taxonomy matching *)
(* ===================================================================== *)

Section TaxonomyMatching.

Import AIExtractionService Spec.

Lemma exact_match_dict (d : list (string * pyval)) (available : list division) :
  exact_match (PyDict d) available = Ok (List.find (exact d) available).
Proof.
  induction available as [|div rest IH]; [reflexivity|].
  cbn [exact_match get res_bind List.find].
  unfold exact, Blueprint.or_default.
  destruct (int_eq (div_id div) _); [reflexivity|].
  cbn [orb].
  destruct (str_eq (div_code div) _); [reflexivity|].
  exact IH.
Qed.

Lemma fuzzy_match_find (n : string) (available : list division) :
  fuzzy_match n available = List.find (fuzzy n) available.
Proof.
  induction available as [|div rest IH]; [reflexivity|].
  cbn [fuzzy_match List.find]. unfold fuzzy at 1.
  destruct (_ || _); [reflexivity | exact IH].
Qed.

(** On a dict whose name is text the search is the three-stage one. *)
Lemma find_matching_division_text (d : list (string * pyval))
    (available : list division) :
  name_is_text d ->
  _find_matching_division (PyDict d) available = Ok (matching_division d available).
Proof.
  intros Hname.
  unfold _find_matching_division, matching_division.
  rewrite exact_match_dict. cbn [res_bind].
  destruct (List.find (exact d) available) as [div|]; [reflexivity|].
  unfold name_is_text in Hname. unfold lowered_name, get.
  destruct (lookup d "name") as [[| | | |s| |]|]; try contradiction;
    cbn [res_bind lower_val]; rewrite fuzzy_match_find.
  - destruct (List.find _ available); [reflexivity|].
    destruct available; reflexivity.
  - change (lower "") with "".
    destruct (List.find _ available); [reflexivity|].
    destruct available; reflexivity.
Qed.

Lemma matching_division_In (d : list (string * pyval)) (available : list division) :
  available <> [] -> In (matching_division d available) available.
Proof.
  intros Hne. unfold matching_division.
  destruct (List.find (exact d) available) as [div|] eqn:E.
  - apply find_some in E. tauto.
  - destruct (List.find (fuzzy _) available) as [div|] eqn:F.
    + apply find_some in F. tauto.
    + destruct available; [congruence | left; reflexivity].
Qed.

(** Whatever the argument, a returned division of a non-empty taxonomy is
    one of its elements. *)
Lemma find_matching_division_In (csi : pyval) (available : list division)
    (div : division) :
  available <> [] ->
  _find_matching_division csi available = Ok div ->
  In div available.
Proof.
  intros Hne. unfold _find_matching_division.
  destruct csi as [| | | | | |d];
    try (destruct available as [|a rest]; [congruence | discriminate]).
  rewrite exact_match_dict. cbn [res_bind].
  destruct (List.find (exact d) available) as [x|] eqn:E.
  - intros [= <-]. apply find_some in E. tauto.
  - unfold get. cbn [res_bind].
    destruct (lower_val _) as [n|e]; [|discriminate]. cbn [res_bind].
    rewrite fuzzy_match_find.
    destruct (List.find (fuzzy n) available) as [x|] eqn:F.
    + intros [= <-]. apply find_some in F. tauto.
    + destruct available; [congruence | intros [= <-]; left; reflexivity].
Qed.

Lemma find_matching_division_empty (csi : pyval) (div : division) :
  _find_matching_division csi [] = Ok div -> div = default_division.
Proof.
  unfold _find_matching_division. cbn [exact_match res_bind].
  destruct (get csi "name" _) as [n|]; [|discriminate]. cbn [res_bind].
  destruct (lower_val n); [|discriminate]. cbn.
  congruence.
Qed.

Lemma exact_as_csi (x div : division) :
  exact [("id", PyInt (div_id x)); ("code", PyStr (div_code x));
         ("name", PyStr (div_name x))] div
  = (div_id div =? div_id x) || String.eqb (div_code div) (div_code x).
Proof. reflexivity. Qed.

(** With ids and codes that identify the divisions, the exact stage finds a
    listed division again from its own id and code. *)
Lemma find_exact_self (x : division) (available : list division) :
  NoDup (map div_id available) ->
  NoDup (map div_code available) ->
  In x available ->
  List.find (exact [("id", PyInt (div_id x)); ("code", PyStr (div_code x));
                    ("name", PyStr (div_name x))]) available = Some x.
Proof.
  induction available as [|a rest IH]; intros Hid Hcode Hin; [contradiction|].
  cbn [List.find]. rewrite exact_as_csi.
  cbn [map] in Hid, Hcode.
  apply NoDup_cons_iff in Hid as [Hid1 Hid2].
  apply NoDup_cons_iff in Hcode as [Hc1 Hc2].
  destruct Hin as [->|Hin].
  - rewrite Z.eqb_refl. reflexivity.
  - destruct ((div_id a =? div_id x) || String.eqb (div_code a) (div_code x)) eqn:E.
    + exfalso. apply orb_true_iff in E as [E|E].
      * apply Z.eqb_eq in E. apply Hid1. rewrite E. now apply in_map.
      * apply String.eqb_eq in E. apply Hc1. rewrite E. now apply in_map.
    + now apply IH.
Qed.

End TaxonomyMatching.

Section TaxonomyClaims.

Import AIExtractionService Spec.

(** A name that is not a string is fatal once the exact stage finds
    nothing: [.lower()] raises [AttributeError]. *)
Lemma find_matching_division_bad_name (d : list (string * pyval))
    (available : list division) (v : pyval) :
  lookup d "name" = Some v ->
  (forall s, v <> PyStr s) ->
  List.find (exact d) available = None ->
  _find_matching_division (PyDict d) available = Exc AttributeError.
Proof.
  intros Hv Hns Hex. unfold _find_matching_division.
  rewrite exact_match_dict, Hex. cbn [res_bind get]. rewrite Hv.
  destruct v; try reflexivity. now elim (Hns s).
Qed.

(** C7, as stated, fails: with a [null] name and no id or code that
    matches, the call raises instead of returning an element of the list,
    and on the empty list it raises instead of returning the default. *)
Lemma find_matching_division_raises :
  _find_matching_division Examples.csi_null_name Examples.taxonomy
    = Exc AttributeError
  /\ _find_matching_division Examples.csi_null_name [] = Exc AttributeError
  /\ ~ (exists div, _find_matching_division Examples.csi_null_name Examples.taxonomy
                    = Ok div /\ In div Examples.taxonomy).
Proof.
  repeat split; try reflexivity.
  intros [div [H _]]. vm_compute in H. discriminate.
Qed.

(** C7 (amended): for every csiDivision dict whose name is a string or
    absent, [_find_matching_division] does not raise; it returns the first
    division matching by id or code, else the first whose lowercased name
    contains, or is contained in, the lowercased name, else the first
    element; the result belongs to a non-empty list and is the fixed
    default [{'id': 1, 'name': 'General', 'code': '01 00 00'}] for an empty
    one. *)
Theorem find_matching_division_fallback (d : list (string * pyval))
    (available : list division) :
  name_is_text d ->
  _find_matching_division (PyDict d) available = Ok (matching_division d available)
  /\ (available <> [] -> In (matching_division d available) available)
  /\ (available = [] ->
      matching_division d available = mkDivision 1 "General" "01 00 00" []).
Proof.
  intros Hname. split; [|split].
  - now apply find_matching_division_text.
  - apply matching_division_In.
  - intros ->. reflexivity.
Qed.

Lemma find_matching_division_fallback_witness :
  name_is_text Examples.csi_by_name
  /\ _find_matching_division (PyDict Examples.csi_by_name) Examples.taxonomy
     = Ok Examples.masonry.
Proof.
  split; [exact I|].
  exact (proj1 (find_matching_division_fallback Examples.csi_by_name
                  Examples.taxonomy I)).
Defined.

(** C5, as stated, fails: in a list where two divisions share a code,
    the division found by id is not found again from its own id, code and
    name. *)
Lemma find_matching_division_not_idempotent :
  Examples.shared_code <> []
  /\ _find_matching_division Examples.csi_id_4 Examples.shared_code
     = Ok Examples.masonry_dup
  /\ _find_matching_division (as_csi Examples.masonry_dup) Examples.shared_code
     = Ok Examples.concrete
  /\ Examples.concrete <> Examples.masonry_dup.
Proof.
  repeat split; try reflexivity; discriminate.
Qed.

(** C5 (amended): for every list of divisions whose ids are pairwise
    distinct and whose codes are pairwise distinct, and every csiDivision
    input on which [_find_matching_division] returns a division, applying
    it again to that division's id, code and name returns the same
    division. *)
Theorem find_matching_division_idempotent (csi : pyval)
    (available : list division) (div : division) :
  NoDup (map div_id available) ->
  NoDup (map div_code available) ->
  _find_matching_division csi available = Ok div ->
  _find_matching_division (as_csi div) available = Ok div.
Proof.
  intros Hid Hcode Hfirst.
  destruct available as [|a rest].
  - apply find_matching_division_empty in Hfirst. subst div. reflexivity.
  - assert (Hin : In div (a :: rest))
      by (eapply find_matching_division_In; [discriminate | exact Hfirst]).
    unfold as_csi, _find_matching_division.
    rewrite exact_match_dict, (find_exact_self div (a :: rest) Hid Hcode Hin).
    reflexivity.
Qed.

Lemma find_matching_division_idempotent_witness :
  NoDup (map div_id Examples.taxonomy)
  /\ NoDup (map div_code Examples.taxonomy)
  /\ _find_matching_division (PyDict Examples.csi_by_name) Examples.taxonomy
     = Ok Examples.masonry
  /\ _find_matching_division (as_csi Examples.masonry) Examples.taxonomy
     = Ok Examples.masonry.
Proof.
  assert (Hid : NoDup (map div_id Examples.taxonomy))
    by (repeat constructor; cbn; intuition discriminate).
  assert (Hcode : NoDup (map div_code Examples.taxonomy))
    by (repeat constructor; cbn; intuition discriminate).
  split; [exact Hid|]. split; [exact Hcode|]. split; [reflexivity|].
  exact (find_matching_division_idempotent (PyDict Examples.csi_by_name)
           Examples.taxonomy Examples.masonry Hid Hcode eq_refl).
Defined.

End TaxonomyClaims.

(* ===================================================================== *)
(** ** Doubles that stay numbers *)
(* ===================================================================== *)

Section DoubleBounds.

Import Spec.


















End DoubleBounds.

(* ===================================================================== *)
(** ** The quality heuristic *)
(* ===================================================================== *)

Section QualityHeuristic.

Import AIExtractionService Spec.

(** Rounding keeps the sign it is given. *)
Lemma binary_round_aux_sign (sx : bool) (mx ex : Z) (lx : SpecFloat.location) :
  match binary_round_aux Float64.prec Float64.emax sx mx ex lx with
  | S754_zero s | S754_infinity s | S754_finite s _ _ => s = sx
  | S754_nan => True
  end.
Proof.
  unfold binary_round_aux.
  destruct (shr_fexp _ _ mx ex lx) as [mrs' e'].
  destruct (shr_fexp _ _ _ e' loc_Exact) as [mrs'' e''].
  destruct (shr_m mrs''); [reflexivity | | exact I].
  destruct (e'' <=? _); reflexivity.
Qed.

(** A finite product of a non-negative double and 100 is non-negative. *)
Lemma fmul_100_sign (q : spec_float) :
  match q with
  | S754_zero s | S754_infinity s | S754_finite s _ _ => s = false
  | S754_nan => True
  end ->
  match Float64.fmul q (Float64.of_Z 100) with
  | S754_zero s | S754_infinity s | S754_finite s _ _ => s = false
  | S754_nan => True
  end.
Proof.
  change (Float64.of_Z 100) with (S754_finite false 7036874417766400 (-46)).
  destruct q as [s|s| |s m e]; cbn [Float64.fmul SFmul]; intros H;
    try (subst s; reflexivity); try exact I.
  subst s. apply binary_round_aux_sign.
Qed.







(** When the NLP call failed no requirement is counted: the coverage is 0
    and the quality 'poor'. *)
Lemma combined_insights_nlp_failed (smart : smart_result) (e : exn) :
  let i := _generate_combined_insights smart (NLPFailure e) in
  totalDataPoints i = PyInt (Z.of_nat (List.length (extractedItems smart)) + 0)
  /\ requirementsCoverage i = 0
  /\ extractionQuality i = "poor".
Proof.
  cbv zeta. unfold _generate_combined_insights, combined_insights_body.
  cbn [requirements_count res_bind add_int gt_zero andb ge_int].
  repeat split.
  cbn [extractionQuality].
  destruct (15 <=? _), (10 <=? _), (5 <=? _); reflexivity.
Qed.

End QualityHeuristic.

(* ===================================================================== *)
(** ** The pipeline *)
(* ===================================================================== *)

Section Pipeline.

Import AIExtractionService Spec.

Variable w : World.

Lemma perform_ocr_run (image_path : string) (s : State) :
  perform_ocr w image_path s
  = (Ok (ocr_text_of w image_path), with_trace s (trace s ++ [EvOCR image_path])).
Proof.
  unfold perform_ocr, ocr_text_of, Run.bind, emit.
  destruct (image_to_string w image_path); reflexivity.
Qed.

Lemma smart_extraction_analysis_run (ocr_text image : string)
    (available_divisions : list division)
    (drawing_metadata : list (string * pyval)) (s : State) :
  let request := SmartRequest (division_lines available_divisions)
                   (metadata_text drawing_metadata) ocr_text image 4000 in
  smart_extraction_analysis w ocr_text image available_divisions drawing_metadata s
  = (Ok (smart_answer w (List.length (trace s)) request available_divisions),
     with_trace s (trace s ++ [EvLLM request])).
Proof.
  cbv zeta. unfold smart_extraction_analysis, smart_answer, Run.bind, calls, emit.
  destruct (messages_create w _ _); reflexivity.
Qed.

Lemma enhanced_nlp_analysis_run (ocr_text image : string) (s : State) :
  enhanced_nlp_analysis w ocr_text image s
  = (Ok (nlp_answer w (List.length (trace s)) (NLPRequest ocr_text 3000)),
     with_trace s (trace s ++ [EvLLM (NLPRequest ocr_text 3000)])).
Proof.
  unfold enhanced_nlp_analysis, nlp_answer, Run.bind, calls, emit.
  destruct (messages_create w _ _); reflexivity.
Qed.

(** The run of [comprehensive_extraction] on an image that can be read. *)
Lemma comprehensive_extraction_run (image_path image : string)
    (available_divisions : list division)
    (drawing_metadata : list (string * pyval)) (s : State) :
  read_base64 w image_path = Ok image ->
  let n := List.length (trace s) in
  let ocr_text := ocr_text_of w image_path in
  let smart_request :=
    SmartRequest (division_lines available_divisions)
      (metadata_text drawing_metadata) ocr_text image 4000 in
  let nlp_request := NLPRequest ocr_text 3000 in
  let smart := smart_answer w (n + 2) smart_request available_divisions in
  let nlp := nlp_answer w (n + 3) nlp_request in
  comprehensive_extraction w image_path available_divisions drawing_metadata s
  = (Ok (Comprehensive smart nlp (_generate_combined_insights smart nlp)
           (mkProcessing (clock w (n + 4)) (String.length ocr_text))),
     with_trace s (trace s ++ [EvOCR image_path; EvReadImage image_path;
                               EvLLM smart_request; EvLLM nlp_request])).
Proof.
  intros Hread. cbv zeta.
  unfold comprehensive_extraction, try_except, Run.bind.
  rewrite perform_ocr_run.
  unfold emit, lift, with_trace. cbn [db pending db_ops trace].
  rewrite Hread.
  rewrite smart_extraction_analysis_run.
  unfold with_trace. cbn [db pending db_ops trace].
  rewrite enhanced_nlp_analysis_run.
  unfold with_trace, calls, ret. cbn [db pending db_ops trace].
  rewrite <- !app_assoc. cbn [app].
  rewrite !length_app. cbn [List.length].
  replace (List.length (trace s) + 2)%nat with (List.length (trace s) + 1 + 1)%nat by lia.
  replace (List.length (trace s) + 3)%nat with (List.length (trace s) + 1 + 1 + 1)%nat by lia.
  replace (List.length (trace s) + 4)%nat with (List.length (trace s) + 1 + 1 + 1 + 1)%nat by lia.
  reflexivity.
Qed.


(** When the image cannot be read the model is never called and the result
    has none of the three components. *)
Lemma comprehensive_extraction_unreadable (image_path : string)
    (available_divisions : list division)
    (drawing_metadata : list (string * pyval)) (s : State) (e : exn) :
  read_base64 w image_path = Exc e ->
  comprehensive_extraction w image_path available_divisions drawing_metadata s
  = (Ok (ExtractionError e (clock w (List.length (trace s) + 2))),
     with_trace s (trace s ++ [EvOCR image_path; EvReadImage image_path])).
Proof.
  intros Hread.
  unfold comprehensive_extraction, try_except, Run.bind.
  rewrite perform_ocr_run.
  unfold emit, lift, with_trace, calls, ret. cbn [db pending db_ops trace].
  rewrite Hread.
  rewrite <- !app_assoc. cbn [app trace].
  rewrite !length_app. reflexivity.
Qed.

End Pipeline.


(* ===================================================================== *)
(** ** Running the session and the ledger *)
(* ===================================================================== *)

(** Unfolds the session and the credit service down to the world's
    answers. *)
Ltac run_session :=
  cbv beta iota zeta delta
    [CreditService.deduct_credits CreditService.has_sufficient_credits
     Session.query_user Session.get_credit_balance Session.query_drawing
     Session.query_divisions_data Session.query_profile
     Session.commit Session.add Session.rollback Session.db_op
     Run.try_except Run.bind Run.ret Run.raise Run.lift Run.get_db
     Run.get_pending];
  cbn [db pending db_ops trace].

Section Ledger.

Import Spec.

Variable w : World.




Lemma pending_rows_app (l l' : list obj) :
  pending_rows (l ++ l') = pending_rows l ++ pending_rows l'.
Proof. unfold pending_rows. apply flat_map_app. Qed.



(** [comprehensive_extraction] never raises and touches nothing but the
    trace. *)
Lemma comprehensive_extraction_effect (image_path : string)
    (available_divisions : list division)
    (drawing_metadata : list (string * pyval)) (s : State) :
  exists r t,
    AIExtractionService.comprehensive_extraction w image_path available_divisions
      drawing_metadata s = (Ok r, with_trace s (trace s ++ t)).
Proof.
  destruct (read_base64 w image_path) as [image|e] eqn:Hread.
  - eexists. eexists.
    exact (comprehensive_extraction_run w image_path image available_divisions
             drawing_metadata s Hread).
  - eexists. eexists.
    exact (comprehensive_extraction_unreadable w image_path available_divisions
             drawing_metadata s e Hread).
Qed.

(** The item loop adds the rows that can be built, in order, and nothing
    else. *)
Lemma save_items_run (row_of : item -> res ExtractedData) (items : list item)
    (s : State) :
  Blueprint.save_items row_of items s
  = (Ok (saved_rows row_of items),
     mkState (db s) (pending s ++ map ObjRow (saved_rows row_of items))
       (db_ops s) (trace s)).
Proof.
  revert s. induction items as [|it rest IH]; intros s.
  - cbn. rewrite app_nil_r. now destruct s.
  - cbn [Blueprint.save_items saved_rows flat_map].
    destruct (row_of it) as [row|e].
    + unfold Run.bind at 1. unfold Session.add at 1.
      unfold Run.bind at 1. rewrite IH. cbn [db pending db_ops trace ret app map].
      rewrite <- app_assoc. reflexivity.
    + cbn [app]. apply IH.
Qed.

Lemma find_user_In (u : Z) (l : list Z) :
  In u l -> List.find (fun x => x =? u) l = Some u.
Proof.
  induction l as [|x l IH]; [contradiction|]. cbn [List.find].
  destruct (x =? u) eqn:E.
  - apply Z.eqb_eq in E. now subst.
  - intros [->|H]; [now rewrite Z.eqb_refl in E | now apply IH].
Qed.



End Ledger.

(* ===================================================================== *)
(** ** The single-page endpoint *)
(* ===================================================================== *)

(** Unfolds an endpoint down to the world's answers, leaving the pipeline
    and the item loop folded. *)
Ltac run_endpoint :=
  cbv beta iota zeta delta
    [Blueprint.comprehensive_extract_single_page
     Blueprint.comprehensive_extract_all_pages
     Blueprint.new_extraction_service
     CreditService.deduct_credits CreditService.has_sufficient_credits
     Session.query_user Session.get_credit_balance Session.query_drawing
     Session.query_divisions_data Session.query_profile
     Session.commit Session.add Session.rollback Session.db_op
     Run.try_except Run.bind Run.ret Run.raise Run.lift Run.get_db
     Run.get_pending Spec.with_trace];
  cbn [db pending db_ops trace negb].

(** The answers an endpoint waits for. *)
Ltac awaited x :=
  match x with
  | db_fault _ _ => idtac
  | List.find _ _ => idtac
  | Blueprint.prepare_metadata _ _ _ _ => idtac
  | path_exists _ _ => idtac
  | api_key _ => idtac
  | Qle_bool _ _ => idtac
  | Blueprint.tokens_for _ => idtac
  | smart_success _ => idtac
  | _ => is_var x
  end.

(** One step of an endpoint: the pipeline and the item loop by their
    lemmas, anything else by cases on the answer it waits for. *)
Ltac step_endpoint :=
  match goal with
  | |- context [AIExtractionService.comprehensive_extraction ?w ?p ?d ?m ?st] =>
      let r := fresh "r" in
      let t := fresh "t" in
      let E := fresh "E" in
      destruct (comprehensive_extraction_effect w p d m st) as (r & t & E);
      rewrite E; clear E
  | |- context [Blueprint.save_items ?f ?items ?st] =>
      rewrite (save_items_run f items st)
  | |- context [match negb ?x with _ => _ end] => awaited x; destruct x eqn:?
  | |- context [match ?x with _ => _ end] => awaited x; destruct x eqn:?
  end;
  run_endpoint.

Section SinglePage.

Import Spec.

Variable w : World.





End SinglePage.


(* ===================================================================== *)
(** ** Prepaid metering *)
(* ===================================================================== *)

Section Metering.

Import Spec.

Variable w : World.




End Metering.




(* ===================================================================== *)
(** ** No sufficiency check in the deduction *)
(* ===================================================================== *)



(* ===================================================================== *)
(** ** The bulk endpoint *)
(* ===================================================================== *)

Section Bulk.

Import Spec.

Variable w : World.

(** [self] is bound nowhere in [comprehensive_extract_all_pages]. *)
Lemma load_self_raises :
  Blueprint.load_name (Blueprint.bulk_locals ++ Blueprint.module_globals) "self"
  = Run.raise NameError.
Proof. reflexivity. Qed.

Lemma flush_nothing (d : DB) : flush d [] = d.
Proof.
  destruct d. unfold flush. cbn. now rewrite !app_nil_r.
Qed.

(** A page of the bulk loop leaves the tables, the session and the totals
    as they were: either it is skipped, or the call of the save helper
    raises [NameError]. *)
Lemma bulk_page_skips (current_user drawing_id : Z) (drawing : Drawing)
    (divisions_data : list division) (acc : Blueprint.totals) (page : Z)
    (s : State) :
  exists t,
    Run.try_except
      (Blueprint.bulk_page w current_user drawing_id drawing divisions_data acc
         page)
      (fun _ => Run.ret acc) s
    = (Ok acc, with_trace s (trace s ++ t)).
Proof.
  unfold Blueprint.bulk_page, Run.try_except.
  destruct (path_exists w (Blueprint.page_image_path page)); cbn [negb].
  2:{ exists []. unfold Run.ret, with_trace. rewrite app_nil_r. now destruct s. }
  unfold Run.bind at 1.
  match goal with
  | |- context [AIExtractionService.comprehensive_extraction ?w ?p ?d ?m ?st] =>
      destruct (comprehensive_extraction_effect w p d m st) as (r & t & E);
      rewrite E; clear E
  end.
  exists t.
  destruct r as [smart nlp combined proc | e elapsed]; [|reflexivity].
  destruct (smart_success smart); cbn [negb]; [|reflexivity].
  rewrite load_self_raises. reflexivity.
Qed.

Lemma bulk_pages_skip (current_user drawing_id : Z) (drawing : Drawing)
    (divisions_data : list division) (acc : Blueprint.totals) (pages : list Z)
    (s : State) :
  exists t,
    Blueprint.bulk_pages w current_user drawing_id drawing divisions_data acc
      pages s
    = (Ok acc, with_trace s (trace s ++ t)).
Proof.
  revert s. induction pages as [|page rest IH]; intros s.
  - exists []. cbn. unfold Run.ret, with_trace. rewrite app_nil_r. now destruct s.
  - cbn [Blueprint.bulk_pages]. unfold Run.bind at 1.
    destruct (bulk_page_skips current_user drawing_id drawing divisions_data acc
                page s) as (t1 & E1).
    rewrite E1.
    destruct (IH (with_trace s (trace s ++ t1))) as (t2 & E2).
    rewrite E2. exists (t1 ++ t2).
    unfold with_trace. cbn [db pending db_ops trace]. now rewrite app_assoc.
Qed.

(** Whatever the pages hold, a bulk request persists no row and deducts no
    credit. *)
Lemma bulk_persists_nothing (current_user drawing_id : Z) (s : State) :
  pending s = [] ->
  exists r s',
    Blueprint.comprehensive_extract_all_pages w current_user drawing_id s
    = (Ok r, s')
    /\ db s' = db s
    /\ forall total_pages results items cost tokens credit_balance,
         r = Blueprint.BulkOk total_pages results items cost tokens credit_balance ->
         results = [] /\ items = 0%nat.
Proof.
  intros Hp. run_endpoint. rewrite ?Hp.
  repeat
    (match goal with
     | |- context [Blueprint.bulk_pages ?w ?u ?d ?g ?dd ?acc ?pages ?st] =>
         let t := fresh "t" in
         let E := fresh "E" in
         destruct (bulk_pages_skip u d g dd acc pages st) as (t & E);
         rewrite E; clear E; run_endpoint
     | _ => step_endpoint
     end).
  all: rewrite ?flush_nothing.
  all: eexists; eexists; (split; [reflexivity|]); (split; [reflexivity|]).
  all: intros total_pages results items cost tokens credit_balance Hr;
       try discriminate Hr.
  all: injection Hr as _ <- <- _ _ _; split; reflexivity.
Qed.

(** The rows the save helper would build are not those of the single-page
    endpoint: the source location has no coordinates. *)
Lemma bulk_row_differs (drawing user page : Z) (enhanced_nlp : nlp_result)
    (processing_time : spec_float) (it : item) (r1 r2 : ExtractedData) :
  Blueprint.bulk_row drawing user page enhanced_nlp processing_time it = Ok r1 ->
  Blueprint.single_page_row drawing user page enhanced_nlp processing_time it
  = Ok r2 ->
  source_location r1 = PageOnly page
  /\ (exists x y, source_location r2 = PageAt page x y)
  /\ r1 <> r2.
Proof.
  unfold Blueprint.bulk_row, Blueprint.single_page_row.
  destruct (Blueprint.nlp_context it enhanced_nlp) as [ctx|e]; [|discriminate].
  cbn [res_bind]. intros [= <-].
  destruct (get (location it) "coordinates" _) as [c|e]; [|discriminate].
  cbn [res_bind].
  destruct (get c "x" _) as [x|e]; [|discriminate]. cbn [res_bind].
  destruct (get c "y" _) as [y|e]; [|discriminate]. cbn [res_bind].
  intros [= <-]. split; [reflexivity|]. split; [now exists x, y|].
  unfold Blueprint.make_row. intros H. discriminate H.
Qed.

End Bulk.




(* ===================================================================== *)
(** ** Upload names *)
(* ===================================================================== *)

Section UploadNames.

Import Uploads Terms.

Lemma prefix_dot (a : ascii) (s : string) :
  prefix "." (String a s) = Ascii.eqb a ".".
Proof.
  cbn [prefix]. destruct (ascii_dec "." a) as [<-|Hne].
  - destruct s; reflexivity.
  - symmetry. apply Ascii.eqb_neq. congruence.
Qed.

Lemma contains_dot (s : string) : contains "." s = occurs "." s.
Proof.
  induction s as [|a s IH]; [reflexivity|].
  cbn [contains occurs]. now rewrite prefix_dot, IH.
Qed.

Lemma occurs_append (c : ascii) (s t : string) :
  occurs c (s ++ t) = occurs c s || occurs c t.
Proof.
  induction s as [|a s IH]; [reflexivity|].
  cbn [append occurs]. now rewrite IH, orb_assoc.
Qed.

Lemma after_last_dot_none (s : string) :
  occurs "." s = false -> after_last_dot s = None.
Proof.
  induction s as [|a s IH]; [reflexivity|].
  cbn [occurs after_last_dot]. intros H.
  apply orb_false_iff in H as [Ha Hs]. now rewrite (IH Hs), Ha.
Qed.

Lemma after_last_dot_append (stem ext : string) :
  occurs "." ext = false ->
  after_last_dot (stem ++ "." ++ ext) = Some ext.
Proof.
  intros Hext. induction stem as [|a stem IH].
  - cbn. now rewrite (after_last_dot_none ext Hext).
  - cbn [append after_last_dot] in *. now rewrite IH.
Qed.

(** X1: a file name without a dot is refused; a name [stem.ext], [ext]
    being the text after the last dot, is accepted exactly when [ext]
    lowercased is one of the allowed extensions, whatever [stem] holds. *)
Theorem allowed_file_last_extension (allowed : list string) :
  (forall name, occurs "." name = false -> allowed_file allowed name = false)
  /\ (forall stem ext,
        occurs "." ext = false ->
        allowed_file allowed (stem ++ "." ++ ext)
        = existsb (String.eqb (lower ext)) allowed).
Proof.
  split.
  - intros name H. unfold allowed_file. now rewrite contains_dot, H.
  - intros stem ext H. unfold allowed_file.
    rewrite contains_dot, occurs_append, (after_last_dot_append stem ext H).
    cbn [append occurs]. rewrite Ascii.eqb_refl, orb_true_r. reflexivity.
Qed.

End UploadNames.

Lemma allowed_file_last_extension_witness :
  Terms.occurs "." "PDF" = false
  /\ Terms.occurs "." "exe" = false
  /\ Terms.occurs "." "README" = false
  /\ Uploads.allowed_file Uploads.ALLOWED_EXTENSIONS "site.plan.PDF" = true
  /\ Uploads.allowed_file Uploads.ALLOWED_EXTENSIONS "plan.pdf.exe" = false
  /\ Uploads.allowed_file Uploads.ALLOWED_EXTENSIONS "README" = false.
Proof.
  destruct (allowed_file_last_extension Uploads.ALLOWED_EXTENSIONS) as [Hno Hext].
  split; [reflexivity|]. split; [reflexivity|]. split; [reflexivity|].
  split; [exact (Hext "site.plan" "PDF" eq_refl)|].
  split; [exact (Hext "plan.pdf" "exe" eq_refl)|].
  exact (Hno "README" eq_refl).
Defined.

(* ===================================================================== *)
(** ** More on the ledger *)
(* ===================================================================== *)

Section LedgerMore.

Import Spec.

Variable w : World.

Lemma find_user_None (u : Z) (l : list Z) :
  List.find (fun x => x =? u) l = None -> ~ In u l.
Proof.
  intros H Hin. apply find_user_In in Hin. congruence.
Qed.

Lemma find_user_Some (u v : Z) (l : list Z) :
  List.find (fun x => x =? u) l = Some v -> In u l.
Proof.
  intros H. apply find_some in H as [Hin Heq].
  apply Z.eqb_eq in Heq. now subst.
Qed.

(** X2: [has_sufficient_credits] fails closed.  It never raises and changes
    neither the tables, the session nor the outside calls; it answers True
    exactly when both of its database reads succeed, the user exists and
    the balance the session sees is at least the estimated cost. *)
Theorem has_sufficient_credits_fails_closed (user_id : Z) (estimated_cost : Q)
    (s : State) :
  exists b s',
    CreditService.has_sufficient_credits w user_id estimated_cost s = (Ok b, s')
    /\ db s' = db s /\ pending s' = pending s /\ trace s' = trace s
    /\ (b = true <->
        db_fault w (db_ops s) = false
        /\ db_fault w (S (db_ops s)) = false
        /\ In user_id (users (db s))
        /\ (estimated_cost
            <= sum_amounts (transactions_of user_id (visible_transactions s)))%Q).
Proof.
  unfold visible_transactions. run_session.
  destruct (db_fault w (db_ops s)) eqn:F0; run_session.
  { eexists. eexists. repeat split; try reflexivity; intros; intuition congruence. }
  destruct (List.find _ (users (db s))) as [u|] eqn:Hu; run_session.
  2:{ eexists. eexists. repeat split; try reflexivity; try discriminate.
      intros (_ & _ & Hin & _). now apply find_user_None in Hu. }
  apply find_user_Some in Hu.
  destruct (db_fault w (S (db_ops s))) eqn:F1; run_session.
  { eexists. eexists. repeat split; try reflexivity; intros; intuition congruence. }
  eexists. eexists. split; [reflexivity|]. repeat split; try reflexivity; auto.
  - now apply Qle_bool_iff.
  - intros (_ & _ & _ & H). now apply Qle_bool_iff.
Qed.

(** A deduction run to its end, for any world. *)
Lemma deduct_credits_results (user_id : Z) (amount : Q) (description : string)
    (operation : option string) (tokens_used : option Z) (s : State) :
  exists r s',
    CreditService.deduct_credits w user_id amount description operation
      tokens_used s = (Ok r, s')
    /\ trace s' = trace s
    /\ match r with
       | Some t =>
           txn_user_id t = user_id
           /\ db s' = flush (db s) (pending s ++ [ObjTransaction t])
       | None => db s' = db s
       end.
Proof.
  run_session.
  destruct (db_fault w (db_ops s)); run_session;
    [eexists; eexists; repeat split; reflexivity|].
  destruct (List.find _ (users (db s))); run_session;
    [|eexists; eexists; repeat split; reflexivity].
  destruct (db_fault w (S (db_ops s))); run_session;
    [eexists; eexists; repeat split; reflexivity|].
  destruct (db_fault w (S (S (db_ops s)))); run_session;
    eexists; eexists; repeat split; reflexivity.
Qed.

Lemma transactions_of_other (u v : Z) (l : list AICreditTransaction)
    (t : AICreditTransaction) :
  txn_user_id t = u -> v <> u ->
  transactions_of v (l ++ [t]) = transactions_of v l.
Proof.
  intros <- Hne. unfold transactions_of. rewrite filter_app. cbn [filter].
  destruct (txn_user_id t =? v) eqn:E.
  - apply Z.eqb_eq in E. congruence.
  - apply app_nil_r.
Qed.

(** X3: a deduction touches one account.  Whatever [deduct_credits] does
    for a user (success or not), it never raises, makes no outside call,
    persists no extracted row, and leaves the balance of every other user
    as it was. *)
Theorem deduct_credits_other_users (user_id : Z) (amount : Q)
    (description : string) (operation : option string) (tokens_used : option Z)
    (s : State) :
  pending s = [] ->
  exists r s',
    CreditService.deduct_credits w user_id amount description operation
      tokens_used s = (Ok r, s')
    /\ trace s' = trace s
    /\ extracted_data (db s') = extracted_data (db s)
    /\ forall other, other <> user_id ->
         credit_balance s' other = credit_balance s other.
Proof.
  intros Hp.
  destruct (deduct_credits_results user_id amount description operation
              tokens_used s) as (r & s' & Hrun & Htrace & Hr).
  exists r, s'. split; [exact Hrun|]. split; [exact Htrace|].
  unfold credit_balance.
  destruct r as [t|].
  - destruct Hr as [Hu ->]. rewrite Hp.
    cbn [flush extracted_data ai_credit_transactions app pending_transactions
           pending_rows flat_map].
    split; [apply app_nil_r|].
    intros other Hne. now rewrite (transactions_of_other user_id other _ t Hu Hne).
  - rewrite Hr. split; [reflexivity|]. reflexivity.
Qed.


End LedgerMore.

Lemma deduct_credits_other_users_witness :
  pending Cases.two_users = []
  /\ exists r s',
       CreditService.deduct_credits Examples.world 7 (1 # 2) "Extraction" None
         None Cases.two_users = (Ok r, s')
       /\ Spec.credit_balance s' 8 = Spec.credit_balance Cases.two_users 8.
Proof.
  split; [reflexivity|].
  destruct (deduct_credits_other_users Examples.world 7 (1 # 2) "Extraction"
              None None Cases.two_users eq_refl)
    as (r & s' & Hrun & _ & _ & Hother).
  exists r, s'. split; [exact Hrun|]. apply Hother. discriminate.
Defined.


(* ===================================================================== *)
(** ** The balance as a sum *)
(* ===================================================================== *)

Section BalanceSum.

Lemma fold_amounts_acc (l : list AICreditTransaction) (a : Q) :
  (fold_left (fun acc t => acc + amount t) l a
   == a + sum_amounts l)%Q.
Proof.
  unfold sum_amounts. revert a.
  induction l as [|t l IH]; intros a; cbn [fold_left].
  - ring.
  - rewrite (IH (a + amount t)%Q), (IH (0 + amount t)%Q). ring.
Qed.

Lemma sum_amounts_cons (t : AICreditTransaction) (l : list AICreditTransaction) :
  (sum_amounts (t :: l) == amount t + sum_amounts l)%Q.
Proof.
  unfold sum_amounts at 1. cbn [fold_left].
  rewrite fold_amounts_acc. ring.
Qed.

Lemma sum_amounts_permutation (l l' : list AICreditTransaction) :
  Permutation l l' -> (sum_amounts l == sum_amounts l')%Q.
Proof.
  induction 1 as [|t l l' _ IH|t u l|l l' l'' _ IH1 _ IH2].
  - reflexivity.
  - now rewrite !sum_amounts_cons, IH.
  - rewrite !sum_amounts_cons. ring.
  - now rewrite IH1.
Qed.

Lemma transactions_of_permutation (u : Z) (l l' : list AICreditTransaction) :
  Permutation l l' -> Permutation (transactions_of u l) (transactions_of u l').
Proof.
  unfold transactions_of.
  induction 1 as [|t l l' _ IH|t v l|l l' l'' _ IH1 _ IH2]; cbn [filter].
  - constructor.
  - destruct (txn_user_id t =? u); [now constructor | exact IH].
  - destruct (txn_user_id t =? u), (txn_user_id v =? u);
      try reflexivity; constructor.
  - now transitivity (filter (fun t => txn_user_id t =? u) l').
Qed.

(** X5: the balance of [get_credit_balance] does not depend on the order
    in which the relationship returns the transactions, and it is additive:
    the balance over two batches of transactions is the sum of the two
    balances. *)
Theorem credit_balance_order_free (user_id : Z)
    (l l' : list AICreditTransaction) :
  Permutation l l' ->
  (sum_amounts (transactions_of user_id l)
   == sum_amounts (transactions_of user_id l'))%Q
  /\ (forall more,
        sum_amounts (transactions_of user_id (l ++ more))
        == sum_amounts (transactions_of user_id l)
           + sum_amounts (transactions_of user_id more))%Q.
Proof.
  intros Hperm. split.
  - now apply sum_amounts_permutation, transactions_of_permutation.
  - intros more. unfold transactions_of. rewrite filter_app.
    generalize (filter (fun t => txn_user_id t =? user_id) more) as m.
    generalize (filter (fun t => txn_user_id t =? user_id) l) as k.
    intros k m. unfold sum_amounts at 1. rewrite fold_left_app.
    rewrite fold_amounts_acc. reflexivity.
Qed.

End BalanceSum.

Lemma credit_balance_order_free_witness :
  Permutation [Examples.purchase; Cases.other_usage; Cases.top_up]
              [Cases.top_up; Cases.other_usage; Examples.purchase]
  /\ (sum_amounts (transactions_of 7
                     [Cases.top_up; Cases.other_usage; Examples.purchase])
      == 15)%Q.
Proof.
  assert (Hperm : Permutation [Examples.purchase; Cases.other_usage; Cases.top_up]
                    [Cases.top_up; Cases.other_usage; Examples.purchase]).
  { apply (Permutation_trans (l' := [Cases.other_usage; Examples.purchase; Cases.top_up])).
    - apply perm_swap.
    - apply (Permutation_trans (l' := [Cases.other_usage; Cases.top_up; Examples.purchase])).
      + apply perm_skip, perm_swap.
      + apply perm_swap. }
  split; [exact Hperm|].
  destruct (credit_balance_order_free 7 _ _ Hperm) as [H _].
  rewrite <- H. reflexivity.
Defined.

(* ===================================================================== *)
(** ** Reading the model's replies *)
(* ===================================================================== *)

Section Replies.

Import AIExtractionService Terms.

Variable w : World.

Lemma prefix_char (c a : ascii) (s : string) :
  prefix (String c EmptyString) (String a s) = Ascii.eqb a c.
Proof.
  cbn [prefix]. destruct (ascii_dec c a) as [<-|Hne].
  - rewrite Ascii.eqb_refl. destruct s; reflexivity.
  - symmetry. apply Ascii.eqb_neq. congruence.
Qed.

Lemma find_append (c : ascii) (pre rest : string) :
  occurs c pre = false ->
  find c (pre ++ String c rest) = Some (String.length pre).
Proof.
  unfold find. induction pre as [|a pre IH]; intros H.
  - cbn [append index]. rewrite prefix_char, Ascii.eqb_refl. reflexivity.
  - cbn [occurs] in H. apply orb_false_iff in H as [Ha Hpre].
    cbn [append index String.length]. rewrite prefix_char, Ha, (IH Hpre).
    reflexivity.
Qed.

Lemma rfind_from_none (c : ascii) (s : string) (i : nat) :
  occurs c s = false -> rfind_from c s i = None.
Proof.
  revert i. induction s as [|a s IH]; intros i H; [reflexivity|].
  cbn [occurs] in H. apply orb_false_iff in H as [Ha Hs].
  cbn [rfind_from]. now rewrite (IH (S i) Hs), Ha.
Qed.

Lemma rfind_from_append (c : ascii) (x post : string) (i : nat) :
  occurs c post = false ->
  rfind_from c (x ++ String c post) i = Some (i + String.length x)%nat.
Proof.
  intros H. revert i. induction x as [|a x IH]; intros i.
  - cbn [append rfind_from String.length].
    rewrite (rfind_from_none c post (S i) H), Ascii.eqb_refl.
    f_equal. lia.
  - cbn [append rfind_from String.length]. rewrite IH. f_equal. lia.
Qed.

Lemma string_append_assoc (a b c : string) :
  ((a ++ b) ++ c)%string = (a ++ (b ++ c))%string.
Proof.
  induction a as [|x a IH]; [reflexivity|]. cbn [append]. now rewrite IH.
Qed.

Lemma string_length_append (a b : string) :
  String.length (a ++ b) = (String.length a + String.length b)%nat.
Proof.
  induction a as [|x a IH]; [reflexivity|]. cbn [append String.length].
  now rewrite IH.
Qed.

Lemma substring_whole_prefix (m b : string) :
  substring 0 (String.length m) (m ++ b) = m.
Proof.
  induction m as [|x m IH]; cbn [append String.length substring].
  - destruct b; reflexivity.
  - now rewrite IH.
Qed.

Lemma substring_middle (a m b : string) :
  substring (String.length a) (String.length m) (a ++ (m ++ b)) = m.
Proof.
  induction a as [|x a IH]; cbn [append String.length substring].
  - apply substring_whole_prefix.
  - exact IH.
Qed.

(** X6: prose around the JSON is dropped.  When a reply is an object
    wrapped in text, with no opening brace before it and no closing brace
    after it, both parsers hand exactly the object to [json.loads]; a reply
    without an opening or without a closing brace is a [ValueError]. *)
Theorem json_str_drops_prose (pre body post : string) :
  occurs "{" pre = false ->
  occurs "}" post = false ->
  json_str (pre ++ "{" ++ body ++ "}" ++ post) = Ok ("{" ++ body ++ "}")%string
  /\ json_str pre = Exc ValueError
  /\ json_str post = Exc ValueError.
Proof.
  intros Hpre Hpost. split; [|split].
  - unfold json_str.
    change ("{" ++ body ++ "}" ++ post)%string
      with (String "{" (body ++ String "}" post)).
    rewrite (find_append "{" pre _ Hpre).
    replace (pre ++ String "{" (body ++ String "}" post))%string
      with ((pre ++ String "{" body) ++ String "}" post)%string
      by (rewrite string_append_assoc; reflexivity).
    unfold rfind. rewrite (rfind_from_append "}" _ post 0 Hpost).
    cbn [Nat.add]. unfold slice_incl.
    rewrite string_length_append. cbn [String.length].
    replace (S (String.length pre + S (String.length body)) - String.length pre)%nat
      with (String.length ("{" ++ body ++ "}")%string)
      by (cbn [append String.length]; rewrite string_length_append;
          cbn [String.length]; lia).
    rewrite string_append_assoc. cbn [append].
    replace (String "{" (body ++ String "}" post))
      with (("{" ++ body ++ "}") ++ post)%string
      by (cbn [append]; rewrite string_append_assoc; reflexivity).
    now rewrite substring_middle.
  - unfold json_str, find.
    assert (H : index 0 "{" pre = None).
    { clear -Hpre. induction pre as [|a pre IH]; [reflexivity|].
      cbn [occurs] in Hpre. apply orb_false_iff in Hpre as [Ha Hp].
      cbn [index]. now rewrite prefix_char, Ha, (IH Hp). }
    now rewrite H.
  - unfold json_str, rfind. rewrite (rfind_from_none "}" post 0 Hpost).
    now destruct (find "{" post).
Qed.

End Replies.

Lemma json_str_drops_prose_witness :
  Terms.occurs "{" "Here is the JSON: " = false
  /\ Terms.occurs "}" " Let me know." = false
  /\ AIExtractionService.json_str
       "Here is the JSON: {smart-extraction reply} Let me know."
     = Ok "{smart-extraction reply}".
Proof.
  split; [reflexivity|]. split; [reflexivity|].
  exact (proj1 (json_str_drops_prose "Here is the JSON: " "smart-extraction reply"
                  " Let me know." eq_refl eq_refl)).
Defined.

Section ParsedItems.

Import AIExtractionService Terms.

Variable w : World.

Lemma map_res_Forall {A B} (f : A -> res B) (P : B -> Prop) (l : list A)
    (l' : list B) :
  (forall x y, f x = Ok y -> P y) ->
  map_res f l = Ok l' -> Forall P l'.
Proof.
  intros Hf. revert l'. induction l as [|x l IH]; intros l'; cbn [map_res].
  - intros [= <-]. constructor.
  - destruct (f x) as [y|e] eqn:Ex; [|discriminate]. cbn [res_bind].
    destruct (map_res f l) as [ys|e]; [|discriminate]. cbn [res_bind].
    intros [= <-]. constructor; eauto.
Qed.

Lemma map_res_length {A B} (f : A -> res B) (l : list A) (l' : list B) :
  map_res f l = Ok l' -> List.length l' = List.length l.
Proof.
  revert l'. induction l as [|x l IH]; intros l'; cbn [map_res].
  - now intros [= <-].
  - destruct (f x) as [y|e]; [|discriminate]. cbn [res_bind].
    destruct (map_res f l) as [ys|e]; [|discriminate]. cbn [res_bind].
    intros [= <-]. cbn. f_equal. now apply IH.
Qed.

Lemma map_res_raises {A B} (f : A -> res B) (e0 : exn) (l : list A) (x : A) :
  (forall y e, f y = Exc e -> e = e0) ->
  In x l -> f x = Exc e0 -> map_res f l = Exc e0.
Proof.
  intros Hf. induction l as [|a l IH]; [contradiction|].
  intros Hin Hx. cbn [map_res].
  destruct (f a) as [b|e] eqn:Ea.
  - cbn [res_bind]. destruct Hin as [->|Hin]; [congruence|].
    now rewrite (IH Hin Hx).
  - cbn [res_bind]. f_equal. eauto.
Qed.

Lemma exact_match_raises (csi : pyval) (available : list division) (e : exn) :
  exact_match csi available = Exc e -> e = AttributeError.
Proof.
  induction available as [|div rest IH]; [discriminate|].
  cbn [exact_match]. destruct csi; cbn [get res_bind]; try congruence.
  destruct (int_eq _ _); [discriminate|].
  destruct (str_eq _ _); [discriminate|]. exact IH.
Qed.

Lemma matching_division_raises_attribute (csi : pyval)
    (available : list division) (e : exn) :
  _find_matching_division csi available = Exc e -> e = AttributeError.
Proof.
  unfold _find_matching_division.
  destruct (exact_match csi available) as [[div|]|e0] eqn:Ex; cbn [res_bind].
  - discriminate.
  - destruct csi; cbn [get res_bind]; try congruence.
    destruct (match lookup d "name" with Some x => x | None => PyStr "" end);
      cbn [lower_val res_bind]; try congruence.
    destruct (fuzzy_match _ _); discriminate.
  - intros [= <-]. now apply exact_match_raises in Ex.
Qed.

Lemma process_item_raises (available : list division) (raw : pyval) (e : exn) :
  process_item available raw = Exc e -> e = AttributeError.
Proof.
  unfold process_item. destruct raw; cbn [get res_bind]; try congruence.
  destruct (_find_matching_division _ available) as [div|e0] eqn:Ef;
    cbn [res_bind].
  - destruct (match lookup d "location" with Some x => x | None => PyDict [] end);
      cbn [get res_bind]; congruence.
  - intros [= <-]. now apply matching_division_raises_attribute in Ef.
Qed.

Lemma process_item_tag (available : list division) (raw : pyval) (it : item) :
  process_item available raw = Ok it ->
  exists div,
    (In div available \/ available = [] /\ div = default_division)
    /\ csiDivision it = tag_of div.
Proof.
  unfold process_item. destruct raw; cbn [get res_bind]; try discriminate.
  destruct (_find_matching_division _ available) as [div|e0] eqn:Ef;
    cbn [res_bind]; [|discriminate].
  destruct (match lookup d "location" with Some x => x | None => PyDict [] end);
    cbn [get res_bind]; try discriminate.
  intros [= <-]. exists div. split; [|reflexivity].
  destruct available as [|a rest].
  - right. split; [reflexivity|]. now apply find_matching_division_empty in Ef.
  - left. eapply find_matching_division_In; [discriminate | exact Ef].
Qed.

(** X7: every item a parsed reply yields is tagged from the taxonomy: its
    csiDivision is the id, name and code of one of the available divisions
    (of the fixed default when there is none), whatever division the model
    wrote. *)
Theorem parsed_items_tagged_from_taxonomy (response_text : string)
    (available_divisions : list division) :
  Forall
    (fun it =>
       exists div,
         (In div available_divisions
          \/ available_divisions = [] /\ div = default_division)
         /\ csiDivision it = tag_of div)
    (extractedItems
       (_parse_smart_extraction_response w response_text available_divisions)).
Proof.
  unfold _parse_smart_extraction_response.
  destruct (json_str response_text) as [js|e]; cbn [res_bind];
    [|constructor].
  destruct (loads w js) as [parsed|e]; cbn [res_bind]; [|constructor].
  destruct (get parsed "extractedItems" _) as [raw|e]; cbn [res_bind];
    [|constructor].
  destruct (iter raw) as [raw_list|e]; cbn [res_bind]; [|constructor].
  destruct (map_res _ raw_list) as [items|e] eqn:Em; cbn [res_bind];
    [|constructor].
  destruct (get parsed "summary" _) as [summary|e]; cbn [res_bind];
    [|constructor].
  cbn [extractedItems].
  eapply map_res_Forall; [|exact Em].
  intros x y. apply process_item_tag.
Qed.

(** X8: a reply is parsed whole or not at all.  On a reply whose object
    lists the entries [raw], a successful parse keeps one item per entry, in
    number; one entry that is not an object fails the whole parse with
    [AttributeError]; and a failed parse carries no item at all. *)
Theorem parse_whole_or_nothing (response_text js : string)
    (d : list (string * pyval)) (raw : list pyval)
    (available_divisions : list division) :
  json_str response_text = Ok js ->
  json_loads w js = Some (PyDict d) ->
  lookup d "extractedItems" = Some (PyList raw) ->
  let r := _parse_smart_extraction_response w response_text available_divisions in
  (smart_success r = true ->
   List.length (extractedItems r) = List.length raw)
  /\ (smart_success r = false -> extractedItems r = [])
  /\ (forall bad,
        In bad raw -> (forall e, bad <> PyDict e) ->
        r = failed_extraction AttributeError).
Proof.
  intros Hjs Hloads Hitems. cbv zeta.
  unfold _parse_smart_extraction_response, loads.
  rewrite Hjs. cbn [res_bind]. rewrite Hloads. cbn [res_bind get].
  rewrite Hitems. cbn [res_bind iter].
  destruct (map_res _ raw) as [items|e] eqn:Em; cbn [res_bind].
  - cbn [smart_success extractedItems]. split; [|split].
    + intros _. now apply map_res_length in Em.
    + discriminate.
    + intros bad Hin Hbad. exfalso.
      assert (Hraise : process_item available_divisions bad = Exc AttributeError).
      { unfold process_item. destruct bad; try reflexivity. now elim (Hbad d0). }
      rewrite (map_res_raises _ AttributeError raw bad
                 (process_item_raises available_divisions) Hin Hraise) in Em.
      discriminate.
  - split; [discriminate|]. split; [reflexivity|].
    intros bad Hin Hbad.
    assert (Hraise : process_item available_divisions bad = Exc AttributeError).
    { unfold process_item. destruct bad; try reflexivity. now elim (Hbad d0). }
    rewrite (map_res_raises _ AttributeError raw bad
               (process_item_raises available_divisions) Hin Hraise) in Em.
    now injection Em as <-.
Qed.

End ParsedItems.

Lemma parse_whole_or_nothing_witness :
  AIExtractionService.json_str "Here is the JSON: {smart-extraction reply}"
  = Ok "{smart-extraction reply}"
  /\ (exists d raw,
        json_loads Examples.world "{smart-extraction reply}" = Some (PyDict d)
        /\ lookup d "extractedItems" = Some (PyList raw)
        /\ List.length
             (extractedItems
                (AIExtractionService._parse_smart_extraction_response
                   Examples.world "Here is the JSON: {smart-extraction reply}"
                   Examples.taxonomy))
           = List.length raw).
Proof.
  split; [reflexivity|].
  eexists. eexists. split; [reflexivity|]. split; [reflexivity|].
  refine (match parse_whole_or_nothing Examples.world
                  "Here is the JSON: {smart-extraction reply}"
                  "{smart-extraction reply}" _ _ Examples.taxonomy
                  eq_refl eq_refl eq_refl with
          | conj Hlen _ => Hlen _
          end).
  reflexivity.
Defined.

(* ===================================================================== *)
(** ** The insights, on any pair of results *)
(* ===================================================================== *)

Section InsightsRange.

Import AIExtractionService Spec Terms.

Lemma of_Z_unsigned (n : Z) : 0 <= n -> unsigned (Float64.of_Z n).
Proof.
  intros Hn. unfold Float64.of_Z, binary_normalize.
  destruct n as [|p|p]; [reflexivity | | lia].
  unfold binary_round. destruct (shl_align p 0 _) as [mz ez].
  apply binary_round_aux_sign.
Qed.

Lemma fdiv_unsigned (x y : spec_float) :
  unsigned x -> unsigned y -> unsigned (Float64.fdiv x y).
Proof.
  unfold Float64.fdiv.
  destruct x as [sx|sx| |sx mx ex], y as [sy|sy| |sy my ey];
    cbn [unsigned SFdiv]; intros Hx Hy; subst; try reflexivity; try exact I.
  destruct (SFdiv_core_binary _ _ _ _ _ _) as [[mz ez] lz].
  apply binary_round_aux_sign.
Qed.

Lemma to_int_unsigned (f : spec_float) (k : Z) :
  unsigned f -> Float64.to_int f = Ok k -> 0 <= k.
Proof.
  destruct f as [s|s| |s m e]; cbn [unsigned Float64.to_int]; intros Hs;
    try discriminate.
  - intros [= <-]. lia.
  - subst s. intros [= <-]. destruct e.
    + apply Z.shiftl_nonneg. lia.
    + apply Z.shiftl_nonneg. lia.
    + apply Z.shiftr_nonneg. lia.
Qed.

Lemma truediv_unsigned (n r : Z) (q : spec_float) :
  0 < n -> 0 < r -> Float64.truediv n r = Ok q -> unsigned q.
Proof.
  intros Hn Hr. unfold Float64.truediv.
  destruct r as [|r|r]; try lia. destruct n as [|n|n]; try lia.
  intros [= <-].
  exact (fdiv_unsigned (S754_finite false n 0) (S754_finite false r 0)
           eq_refl eq_refl).
Qed.

(** The ratio of a positive count to a positive number is not negative. *)
Lemma coverage_ratio_nonneg (n : Z) (rc : pyval) (k : Z) :
  0 < n -> gt_zero rc = Ok true -> coverage_ratio n rc = Ok k -> 0 <= k.
Proof.
  intros Hn Hpos. unfold coverage_ratio.
  destruct (div_int n rc) as [q|e] eqn:Eq; [|discriminate]. cbn [res_bind].
  apply to_int_unsigned. apply fmul_100_sign.
  fold (unsigned q).
  destruct rc as [|b|r|f| | |]; cbn [gt_zero div_int] in Hpos, Eq;
    try discriminate.
  - injection Hpos as ->. now apply (truediv_unsigned n 1).
  - injection Hpos as Hr. apply Z.ltb_lt in Hr.
    now apply (truediv_unsigned n r).
  - injection Hpos as Hf.
    assert (Hu : unsigned f).
    { destruct f as [s|[|]| |[|] m e]; cbn in Hf |- *; congruence. }
    destruct f as [s|s| |s m e]; try discriminate;
      injection Eq as <-; (apply fdiv_unsigned; [apply of_Z_unsigned; lia | exact Hu]).
Qed.

(** X9: whatever the two results hold (a requirement count that is
    negative, a float, or no number at all), the reported coverage is a
    percentage between 0 and 100 and the quality is one of the four grades;
    and a coverage below 30 is always graded 'poor'. *)
Theorem combined_insights_in_range (smart : smart_result) (nlp : nlp_result) :
  let i := _generate_combined_insights smart nlp in
  0 <= requirementsCoverage i <= 100
  /\ is_grade (extractionQuality i)
  /\ (requirementsCoverage i < 30 -> extractionQuality i = "poor").
Proof.
  cbv zeta. unfold _generate_combined_insights, combined_insights_body, is_grade.
  set (n := Z.of_nat (List.length (extractedItems smart))).
  destruct (requirements_count nlp) as [rc|e]; cbn [res_bind];
    [|cbn; intuition lia].
  destruct (add_int n rc) as [tdp|e]; cbn [res_bind]; [|cbn; intuition lia].
  destruct (gt_zero rc) as [has|e] eqn:Hpos; cbn [res_bind];
    [|cbn; intuition lia].
  assert (Hcov : forall c,
            (if has && (0 <? n)
             then k <-? coverage_ratio n rc ; Ok (Z.min 100 k)
             else Ok 0) = Ok c -> 0 <= c <= 100).
  { intros c. destruct has; cbn [andb].
    - destruct (0 <? n) eqn:En.
      + apply Z.ltb_lt in En.
        destruct (coverage_ratio n rc) as [k|e] eqn:Ek; [|discriminate].
        cbn [res_bind]. intros [= <-].
        pose proof (coverage_ratio_nonneg n rc k En Hpos Ek). lia.
      + intros [= <-]. lia.
    - intros [= <-]. lia. }
  destruct (if has && (0 <? n) then _ else _) as [c|e]; cbn [res_bind];
    [|cbn; intuition lia].
  specialize (Hcov c eq_refl).
  destruct (ge_int tdp 15) as [ge15|e]; cbn [res_bind]; [|cbn; intuition lia].
  destruct (ge_int tdp 10) as [ge10|e]; cbn [res_bind]; [|cbn; intuition lia].
  destruct (ge_int tdp 5) as [ge5|e]; cbn [res_bind]; [|cbn; intuition lia].
  cbn [requirementsCoverage extractionQuality].
  split; [exact Hcov|].
  destruct (70 <=? c) eqn:E70, (50 <=? c) eqn:E50, (30 <=? c) eqn:E30,
    ge15, ge10, ge5; cbn [andb]; (split; [tauto|]); intros Hlt;
    try reflexivity; exfalso;
    repeat match goal with
           | H : (_ <=? _) = true |- _ => apply Z.leb_le in H
           | H : (_ <=? _) = false |- _ => apply Z.leb_gt in H
           end; lia.
Qed.

End InsightsRange.

(* ===================================================================== *)
(** ** Replies that cannot be read, text that cannot be recognised *)
(* ===================================================================== *)

Section Fallbacks.

Import AIExtractionService Spec Terms.

Variable w : World.

(** X10: an NLP reply that holds no JSON object, or one that does not
    decode, is not reported as a failure: the parser answers the empty
    analysis.  The insights then count no requirement (coverage 0, quality
    'poor' whatever the number of items) and the bulk summary counts zero
    requirements. *)
Theorem nlp_reply_unparsed (response_text : string) :
  match json_str response_text with
  | Ok js => json_loads w js = None
  | Exc _ => True
  end ->
  _parse_nlp_response w response_text = empty_nlp
  /\ (forall smart,
        let i := _generate_combined_insights smart
                   (NLPSuccess (_parse_nlp_response w response_text)) in
        totalDataPoints i
        = PyInt (Z.of_nat (List.length (extractedItems smart)) + 0)
        /\ requirementsCoverage i = 0
        /\ extractionQuality i = "poor")
  /\ Blueprint.requirements_len
       (NLPSuccess (_parse_nlp_response w response_text)) = Ok 0%nat.
Proof.
  intros Hbad.
  assert (Hp : _parse_nlp_response w response_text = empty_nlp).
  { unfold _parse_nlp_response, loads.
    destruct (json_str response_text) as [js|e]; cbn [res_bind]; [|reflexivity].
    now rewrite Hbad. }
  rewrite Hp. split; [reflexivity|]. split; [|reflexivity].
  intros smart. cbv zeta.
  unfold _generate_combined_insights, combined_insights_body.
  change (requirements_count (NLPSuccess empty_nlp)) with (Ok (PyInt 0)).
  cbn [res_bind add_int gt_zero andb ge_int].
  repeat split.
  cbn [extractionQuality].
  destruct (15 <=? _), (10 <=? _), (5 <=? _); reflexivity.
Qed.

Lemma lstrip_first (s : string) (c : ascii) :
  first_char (lstrip s) = Some c -> is_space c = false.
Proof.
  induction s as [|a s IH]; [discriminate|]. cbn [lstrip].
  destruct (is_space a) eqn:Ea; [exact IH|].
  cbn [first_char]. now intros [= <-].
Qed.

Lemma rstrip_first (s : string) (c : ascii) :
  first_char (rstrip s) = Some c -> first_char s = Some c.
Proof.
  destruct s as [|a s]; [discriminate|]. cbn [rstrip].
  destruct (is_space a && String.eqb (rstrip s) ""); [discriminate|].
  exact (fun H => H).
Qed.

Lemma last_char_none (s : string) : last_char s = None -> s = "".
Proof.
  destruct s as [|a s]; [reflexivity|]. cbn [last_char].
  destruct (last_char s); discriminate.
Qed.

Lemma rstrip_last (s : string) (c : ascii) :
  last_char (rstrip s) = Some c -> is_space c = false.
Proof.
  induction s as [|a s IH]; [discriminate|]. cbn [rstrip].
  destruct (is_space a && String.eqb (rstrip s) "") eqn:E; [discriminate|].
  cbn [last_char].
  destruct (last_char (rstrip s)) as [l|] eqn:El.
  - intros [= <-]. now apply IH.
  - intros [= <-]. apply last_char_none in El. rewrite El in E.
    now rewrite andb_true_r in E.
Qed.

Lemma strip_trimmed (s : string) : trimmed (strip s).
Proof.
  unfold trimmed, strip. split; intros c H.
  - apply rstrip_first in H. now apply (lstrip_first s).
  - now apply (rstrip_last (lstrip s)).
Qed.

(** X11: [perform_ocr] never raises and touches nothing but the list of
    outside calls: it answers the recognised text with no whitespace at
    either end, and the empty text when the OCR stack fails. *)
Theorem perform_ocr_trimmed (image_path : string) (s : State) :
  exists text,
    perform_ocr w image_path s
    = (Ok text, with_trace s (trace s ++ [EvOCR image_path]))
    /\ trimmed text
    /\ (forall e, image_to_string w image_path = Exc e -> text = "").
Proof.
  exists (ocr_text_of w image_path). split; [apply perform_ocr_run|].
  unfold ocr_text_of.
  destruct (image_to_string w image_path) as [text|e].
  - split; [apply strip_trimmed | discriminate].
  - split; [|reflexivity]. split; discriminate.
Qed.


End Fallbacks.

Lemma nlp_reply_unparsed_witness :
  AIExtractionService.json_str "I could not find {anything}" = Ok "{anything}"
  /\ json_loads Examples.world "{anything}" = None
  /\ AIExtractionService._parse_nlp_response Examples.world
       "I could not find {anything}" = AIExtractionService.empty_nlp.
Proof.
  split; [reflexivity|]. split; [reflexivity|].
  refine (match nlp_reply_unparsed Examples.world "I could not find {anything}" _
          with conj H _ => H end).
  reflexivity.
Defined.

(* ===================================================================== *)
(** ** The metadata of the prompt *)
(* ===================================================================== *)

Section PromptMetadata.

Import Blueprint.

Variable w : World.

Lemma find_sheet_raises (page : Z) (sheets : list pyval) (e : exn) :
  find_sheet page sheets = Exc e -> e = AttributeError.
Proof.
  induction sheets as [|sheet rest IH]; [discriminate|]. cbn [find_sheet].
  destruct sheet; cbn [get res_bind]; try congruence.
  destruct (int_eq page _); [discriminate | exact IH].
Qed.

Lemma find_sheet_dict (page : Z) (sheets : list pyval) (v : pyval) :
  find_sheet page sheets = Ok (Some v) -> In v sheets /\ exists m, v = PyDict m.
Proof.
  induction sheets as [|sheet rest IH]; [discriminate|]. cbn [find_sheet].
  destruct sheet; cbn [get res_bind]; try discriminate.
  destruct (int_eq page _).
  - intros [= <-]. split; [now left | eauto].
  - intros H. destruct (IH H) as [Hin Hm]. split; [now right | exact Hm].
Qed.

(** What preparing the metadata can give: the five entries, in the order
    of the dict literal, or a [TypeError]. *)
Lemma prepare_metadata_cases (drawing : Drawing)
    (profile : option DrawingProfile) (page : Z) :
  match prepare_metadata w drawing profile page with
  | Ok m =>
      exists number name discipline scale,
        m = [("sheetNumber", number); ("sheetName", name);
             ("discipline", discipline); ("scale", scale);
             ("industry",
              match profile with Some p => industry p | None => PyNone end)]
  | Exc e =>
      e = TypeError
      /\ truthy (sheet_metadata drawing) = true
      /\ forall l, sheet_metadata drawing <> PyList l
  end.
Proof.
  unfold prepare_metadata.
  destruct (truthy (sheet_metadata drawing)) eqn:Ht;
    [|do 4 eexists; reflexivity].
  destruct (sheet_metadata drawing) as [|b|z|f|s|l|d] eqn:Hs;
    cbn [res_bind iter]; try (split; [reflexivity|]; split; [reflexivity|];
                              discriminate).
  - (* a string *)
    unfold AIExtractionService.loads.
    destruct (json_loads w s) as [v|]; cbn [res_bind];
      [|do 4 eexists; reflexivity].
    destruct (iter v) as [sheets|e] eqn:Ei; cbn [res_bind].
    + destruct (find_sheet page sheets) as [[v'|]|e] eqn:Ef; cbn [res_bind].
      * destruct v' as [| | | | | |m]; try (do 4 eexists; reflexivity).
        destruct m; do 4 eexists; reflexivity.
      * do 4 eexists; reflexivity.
      * apply find_sheet_raises in Ef. subst e. do 4 eexists; reflexivity.
    + destruct v; try discriminate Ei; injection Ei as <-;
        (split; [reflexivity|]; split; [reflexivity|]; discriminate).
  - (* a list *)
    destruct (find_sheet page l) as [[v'|]|e] eqn:Ef; cbn [res_bind].
    + destruct v' as [| | | | | |m]; try (do 4 eexists; reflexivity).
      destruct m; do 4 eexists; reflexivity.
    + do 4 eexists; reflexivity.
    + apply find_sheet_raises in Ef. subst e. do 4 eexists; reflexivity.
Qed.

(** X13: the metadata handed to the prompt always has the five keys
    sheetNumber, sheetName, discipline, scale and industry, and the industry
    is the profile's, whatever the sheet metadata holds: a string that does
    not decode or a list with entries that are no objects is passed over.
    Preparing it fails only with [TypeError], and never for a drawing whose
    sheet metadata is a list. *)
Theorem prepare_metadata_shape (drawing : Drawing)
    (profile : option DrawingProfile) (page : Z) :
  match prepare_metadata w drawing profile page with
  | Ok m =>
      map fst m = ["sheetNumber"; "sheetName"; "discipline"; "scale"; "industry"]
      /\ lookup m "industry"
         = Some (match profile with Some p => industry p | None => PyNone end)
  | Exc e =>
      e = TypeError
      /\ truthy (sheet_metadata drawing) = true
      /\ forall l, sheet_metadata drawing <> PyList l
  end.
Proof.
  pose proof (prepare_metadata_cases drawing profile page) as Hcases.
  destruct (prepare_metadata w drawing profile page) as [m|e].
  - destruct Hcases as (number & name & discipline & scale & ->).
    split; reflexivity.
  - exact Hcases.
Qed.

(** X14: once the sheet metadata has an entry for the page, the prompt's
    discipline and scale are the entry's alone: the profile's values are
    dropped, and an entry without them leaves None in their place.  Only the
    industry still comes from the profile. *)
Theorem sheet_entry_overrides_profile (drawing : Drawing)
    (profile : option DrawingProfile) (page : Z) (sheets : list pyval)
    (m : list (string * pyval)) :
  sheet_metadata drawing = PyList sheets ->
  find_sheet page sheets = Ok (Some (PyDict m)) ->
  m <> [] ->
  prepare_metadata w drawing profile page
  = Ok [("sheetNumber",
         or_default m "sheetNumber" (PyStr ("Sheet " ++ str_of_int page)%string));
        ("sheetName", or_default m "sheetTitle" (PyStr (drawing_name drawing)));
        ("discipline", or_default m "discipline" PyNone);
        ("scale", or_default m "scale" PyNone);
        ("industry", match profile with Some p => industry p | None => PyNone end)].
Proof.
  intros Hs Hf Hm. unfold prepare_metadata. rewrite Hs.
  destruct sheets as [|sheet rest]; [discriminate Hf|].
  cbn [truthy res_bind iter]. rewrite Hf. cbn [res_bind].
  destruct m as [|kv m']; [congruence|]. reflexivity.
Qed.

End PromptMetadata.

Lemma sheet_entry_overrides_profile_witness :
  sheet_metadata Cases.drawing_with_sheets = PyList [PyDict Cases.sheet_entry]
  /\ Blueprint.find_sheet 1 [PyDict Cases.sheet_entry]
     = Ok (Some (PyDict Cases.sheet_entry))
  /\ Cases.sheet_entry <> []
  /\ scale Cases.profile = PyStr "1:100"
  /\ (exists md,
        Blueprint.prepare_metadata Examples.world Cases.drawing_with_sheets
          (Some Cases.profile) 1 = Ok md
        /\ lookup md "scale" = Some PyNone
        /\ lookup md "sheetNumber" = Some (PyStr "A-101")
        /\ lookup md "industry" = Some (PyStr "commercial")).
Proof.
  split; [reflexivity|]. split; [reflexivity|]. split; [discriminate|].
  split; [reflexivity|].
  eexists. split.
  - exact (sheet_entry_overrides_profile Examples.world Cases.drawing_with_sheets
             (Some Cases.profile) 1 [PyDict Cases.sheet_entry] Cases.sheet_entry
             eq_refl eq_refl (fun H => eq_ind [] (fun l => match l with [] => True | _ => False end) I _ (eq_sym H))).
  - split; [reflexivity|]. split; reflexivity.
Defined.

(* ===================================================================== *)
(** ** What a single-page request reports and stores *)
(* ===================================================================== *)

Section Persisted.

Import Spec Terms.

Variable w : World.









End Persisted.





(* ===================================================================== *)
(** ** What a bulk request reports *)
(* ===================================================================== *)

Section BulkReport.

Import Spec.

Variable w : World.

(** X17: whatever the pages hold, a bulk request leaves the tables as
    they were and the session empty.  When it answers 200, the user owns the
    drawing and held the estimate of 0.25 credits a page, and the answer
    reports no processed page, no saved item, zero cost and zero tokens, and
    the balance of before. *)
Theorem bulk_reports_nothing_done (current_user drawing_id : Z) (s : State) :
  pending s = [] ->
  exists r s',
    Blueprint.comprehensive_extract_all_pages w current_user drawing_id s
    = (Ok r, s')
    /\ db s' = db s
    /\ pending s' = []
    /\ match r with
       | Blueprint.BulkOk total results items cost tokens bal =>
           results = [] /\ items = 0%nat /\ cost = 0%Q /\ tokens = 0
           /\ bal = credit_balance s current_user
           /\ exists drawing,
                owned_drawing s current_user drawing_id = Some drawing
                /\ total = Blueprint.pages_or_one drawing
                /\ (bulk_estimate drawing <= credit_balance s current_user)%Q
       | Blueprint.SingleOk _ _ _ _ => False
       | Blueprint.JsonError status _ =>
           status = 404 \/ status = 402 \/ status = 500
       end.
Proof.
  intros Hp. run_endpoint. rewrite ?Hp.
  repeat
    (match goal with
     | |- context [Blueprint.bulk_pages ?w ?u ?d ?g ?dd ?acc ?pages ?st] =>
         let t := fresh "t" in
         let E := fresh "E" in
         destruct (bulk_pages_skip w u d g dd acc pages st) as (t & E);
         rewrite E; clear E; run_endpoint
     | _ => step_endpoint
     end).
  all: rewrite ?flush_nothing.
  all: eexists; eexists; (split; [reflexivity|]); (split; [reflexivity|]);
       (split; [reflexivity|]).
  all: try (left; reflexivity).
  all: try (right; left; reflexivity).
  all: try (right; right; reflexivity).
  cbn [Blueprint.all_results Blueprint.total_saved_items Blueprint.total_cost
         Blueprint.total_tokens pending_transactions flat_map].
  rewrite app_nil_r.
  split; [reflexivity|]. split; [reflexivity|]. split; [reflexivity|].
  split; [reflexivity|]. split; [reflexivity|].
  eexists. split; [eassumption|]. split; [reflexivity|].
  match goal with
  | Hle : Qle_bool _ _ = true |- _ =>
      cbn [pending_transactions flat_map] in Hle;
      rewrite app_nil_r in Hle;
      apply Qle_bool_iff in Hle; exact Hle
  end.
Qed.

(** X18: the page loop of the bulk endpoint visits the pages 1 to
    [total_pages], each once; a drawing without a page count, or with the
    count 0, is processed as one page. *)
Theorem bulk_pages_visited (drawing : Drawing) :
  let total := Blueprint.pages_or_one drawing in
  total <> 0
  /\ (forall p, In p (Blueprint.page_range total) <-> 1 <= p <= total)
  /\ NoDup (Blueprint.page_range total)
  /\ (total_pages drawing = None \/ total_pages drawing = Some 0 ->
      Blueprint.page_range total = [1]).
Proof.
  cbv zeta. split; [|split; [|split]].
  - unfold Blueprint.pages_or_one.
    destruct (total_pages drawing) as [n|]; [|discriminate].
    destruct (n =? 0) eqn:E; [discriminate | now apply Z.eqb_neq].
  - intros p. unfold Blueprint.page_range. rewrite in_map_iff. split.
    + intros (k & <- & Hk). apply in_seq in Hk. lia.
    + intros Hp. exists (Z.to_nat p). split; [lia|]. apply in_seq. lia.
  - unfold Blueprint.page_range.
    apply Finite.Injective_map_NoDup; [exact Nat2Z.inj | apply seq_NoDup].
  - unfold Blueprint.pages_or_one. intros [-> | ->]; reflexivity.
Qed.

End BulkReport.

Lemma bulk_reports_nothing_done_witness :
  pending Examples.start = []
  /\ exists r s',
       Blueprint.comprehensive_extract_all_pages Examples.world 7 10
         Examples.start = (Ok r, s')
       /\ db s' = db Examples.start.
Proof.
  split; [reflexivity|].
  destruct (bulk_reports_nothing_done Examples.world 7 10 Examples.start eq_refl)
    as (r & s' & Hrun & Hdb & _).
  exists r, s'. now split.
Defined.

(* ===================================================================== *)
(** ** Names, whatever their case *)
(* ===================================================================== *)

Section NameCase.

Import AIExtractionService Spec.

Lemma find_same {A} (f g : A -> bool) (l : list A) :
  (forall x, f x = g x) -> List.find f l = List.find g l.
Proof.
  intros H. induction l as [|x l IH]; [reflexivity|].
  cbn [List.find]. now rewrite H, IH.
Qed.

(** X19: the division found depends on the name the model wrote only
    through its lowercased form: two csiDivision dicts with the same id and
    code whose names differ by case alone are matched to the same
    division. *)
Theorem find_matching_division_ignores_case (d1 d2 : list (string * pyval))
    (n1 n2 : string) (available : list division) :
  lookup d1 "id" = lookup d2 "id" ->
  lookup d1 "code" = lookup d2 "code" ->
  lookup d1 "name" = Some (PyStr n1) ->
  lookup d2 "name" = Some (PyStr n2) ->
  lower n1 = lower n2 ->
  _find_matching_division (PyDict d1) available
  = _find_matching_division (PyDict d2) available.
Proof.
  intros Hid Hcode H1 H2 Hlow.
  rewrite !find_matching_division_text
    by (unfold name_is_text; rewrite ?H1, ?H2; exact I).
  f_equal. unfold matching_division, lowered_name.
  rewrite H1, H2, Hlow.
  rewrite (find_same (exact d1) (exact d2)); [reflexivity|].
  intros div. unfold exact, Blueprint.or_default. now rewrite Hid, Hcode.
Qed.

End NameCase.

Lemma find_matching_division_ignores_case_witness :
  lower "MASONRY Units" = lower "masonry units"
  /\ AIExtractionService._find_matching_division
       (PyDict [("name", PyStr "MASONRY Units")]) Examples.taxonomy
     = AIExtractionService._find_matching_division
         (PyDict Examples.csi_by_name) Examples.taxonomy
  /\ AIExtractionService._find_matching_division
       (PyDict Examples.csi_by_name) Examples.taxonomy = Ok Examples.masonry.
Proof.
  split; [reflexivity|]. split; [|reflexivity].
  exact (find_matching_division_ignores_case
           [("name", PyStr "MASONRY Units")] Examples.csi_by_name
           "MASONRY Units" "masonry units" Examples.taxonomy
           eq_refl eq_refl eq_refl eq_refl eq_refl).
Defined.

(* ===================================================================== *)
(** ** The context handed to the model and kept with the rows *)
(* ===================================================================== *)

Section Context.

Import AIExtractionService Blueprint Terms.

Variable w : World.

(** X20: in a single-page request the four values of the user prompt
    (sheet number, sheet name, scale, discipline) are always read from the
    prepared metadata, never replaced by the prompt's 'Unknown': for a
    drawing without profile and without sheet metadata the prompt is given
    the scale None and the discipline None. *)
Theorem single_page_prompt_never_unknown (drawing : Drawing)
    (profile : option DrawingProfile) (page : Z) (m : list (string * pyval)) :
  prepare_metadata w drawing profile page = Ok m ->
  exists number name scale discipline,
    metadata_text m = Some (number, name, scale, discipline)
    /\ lookup m "sheetNumber" = Some number
    /\ lookup m "sheetName" = Some name
    /\ lookup m "scale" = Some scale
    /\ lookup m "discipline" = Some discipline
    /\ (profile = None -> truthy (sheet_metadata drawing) = false ->
        scale = PyNone /\ discipline = PyNone).
Proof.
  intros Hm.
  pose proof (prepare_metadata_cases w drawing profile page) as Hcases.
  rewrite Hm in Hcases.
  destruct Hcases as (number & name & discipline & scale & ->).
  exists number, name, scale, discipline.
  split; [reflexivity|]. split; [reflexivity|]. split; [reflexivity|].
  split; [reflexivity|]. split; [reflexivity|].
  intros -> Hfalsy. unfold prepare_metadata in Hm. rewrite Hfalsy in Hm.
  injection Hm as _ _ <- <-. split; reflexivity.
Qed.

Lemma filter_res_incl {A} (p : A -> res bool) (l l' : list A) :
  filter_res p l = Ok l' -> incl l' l /\ Forall (fun x => p x = Ok true) l'.
Proof.
  revert l'. induction l as [|x l IH]; intros l'; cbn [filter_res].
  - intros [= <-]. split; [apply incl_refl | constructor].
  - destruct (p x) as [b|e] eqn:Ex; [|discriminate]. cbn [res_bind].
    destruct (filter_res p l) as [ys|e]; [|discriminate]. cbn [res_bind].
    destruct (IH ys eq_refl) as [Hincl Hall].
    destruct b; intros [= <-].
    + split; [now apply incl_cons; [left | apply incl_tl] | now constructor].
    + split; [now apply incl_tl | exact Hall].
Qed.

Lemma lower_ascii_not_upper (c : ascii) : is_upper (lower_ascii c) = false.
Proof.
  unfold lower_ascii, is_upper.
  destruct ((65 <=? nat_of_ascii c)%nat && (nat_of_ascii c <=? 90)%nat) eqn:E.
  - apply andb_true_iff in E as [E1 E2].
    apply Nat.leb_le in E1, E2.
    rewrite nat_ascii_embedding by lia.
    apply andb_false_iff. right. apply Nat.leb_gt. lia.
  - exact E.
Qed.

Lemma lower_has_no_upper (s : string) : has_upper (lower s) = false.
Proof.
  induction s as [|c s IH]; [reflexivity|].
  cbn [lower has_upper]. now rewrite lower_ascii_not_upper, IH.
Qed.

Lemma prefix_has_upper (needle hay : string) :
  prefix needle hay = true -> has_upper hay = false -> has_upper needle = false.
Proof.
  revert hay. induction needle as [|a needle IH]; intros hay; [reflexivity|].
  destruct hay as [|b hay]; [discriminate|]. cbn [prefix has_upper].
  destruct (ascii_dec a b) as [->|]; [|discriminate].
  intros Hp Hh. apply orb_false_iff in Hh as [Hb Hh].
  now rewrite Hb, (IH hay Hp Hh).
Qed.

Lemma contains_has_upper (needle hay : string) :
  contains needle hay = true -> has_upper hay = false -> has_upper needle = false.
Proof.
  induction hay as [|b hay IH]; cbn [contains]; intros Hc Hh.
  - rewrite orb_false_r in Hc. now apply (prefix_has_upper needle "").
  - apply orb_true_iff in Hc as [Hp|Hc].
    + now apply (prefix_has_upper needle (String b hay)).
    + cbn [has_upper] in Hh. apply orb_false_iff in Hh as [_ Hh]. now apply IH.
Qed.

(** X21: the NLP context kept with an item holds requirements and
    compliance entries of the analysis only, no others.  Requirements are
    matched on lowercased texts, compliance entries are not: the category is
    looked for as written in the lowercased requirement, so an item whose
    category has an uppercase letter is given no compliance entry at all. *)
Theorem nlp_context_filters (it : item) (nlp_data : pyval)
    (requirements compliance : list pyval) :
  nlp_context it (NLPSuccess nlp_data) = Ok (Some (requirements, compliance)) ->
  exists reqs comps all_requirements all_compliance,
    get nlp_data "requirements" (PyList []) = Ok reqs
    /\ iter reqs = Ok all_requirements
    /\ get nlp_data "compliance" (PyList []) = Ok comps
    /\ iter comps = Ok all_compliance
    /\ incl requirements all_requirements
    /\ incl compliance all_compliance
    /\ (forall c, category it = PyStr c -> has_upper c = true -> compliance = []).
Proof.
  unfold nlp_context.
  destruct (get nlp_data "requirements" _) as [reqs|e] eqn:Egr; [|discriminate].
  cbn [res_bind].
  destruct (iter reqs) as [all_r|e] eqn:Eir; [|discriminate]. cbn [res_bind].
  destruct (filter_res _ all_r) as [rs|e] eqn:Er; [|discriminate].
  cbn [res_bind].
  destruct (get nlp_data "compliance" _) as [comps|e] eqn:Egc; [|discriminate].
  cbn [res_bind].
  destruct (iter comps) as [all_c|e] eqn:Eic; [|discriminate]. cbn [res_bind].
  destruct (filter_res _ all_c) as [cs|e] eqn:Ec; [|discriminate].
  cbn [res_bind]. intros [= <- <-].
  exists reqs, comps, all_r, all_c.
  apply filter_res_incl in Er as [Hr _].
  apply filter_res_incl in Ec as [Hc Hall].
  split; [reflexivity|]. split; [exact Eir|]. split; [reflexivity|].
  split; [exact Eic|]. split; [exact Hr|]. split; [exact Hc|].
  intros c Hcat Hup.
  destruct cs as [|comp cs]; [reflexivity|]. exfalso.
  apply Forall_inv in Hall. cbv beta in Hall. rewrite Hcat in Hall.
  destruct (get comp "requirement" _) as [r|e]; [|discriminate Hall].
  cbn [res_bind] in Hall.
  destruct (lower_val r) as [r_l|e] eqn:El; [|discriminate Hall].
  cbn [res_bind in_str] in Hall. injection Hall as Hall.
  destruct r; try discriminate El. injection El as <-.
  pose proof (contains_has_upper c _ Hall (lower_has_no_upper _)). congruence.
Qed.

End Context.

Lemma single_page_prompt_never_unknown_witness :
  exists m,
    Blueprint.prepare_metadata Examples.world
      (mkDrawing 10 7 "Tower A" (Some 2) PyNone) None 1 = Ok m
    /\ AIExtractionService.metadata_text m
       = Some (PyStr "Sheet 1", PyStr "Tower A", PyNone, PyNone).
Proof.
  eexists. split; [reflexivity|].
  destruct (single_page_prompt_never_unknown Examples.world
              (mkDrawing 10 7 "Tower A" (Some 2) PyNone) None 1 _ eq_refl)
    as (number & name & scale & discipline & Htext & _).
  reflexivity.
Defined.

Lemma nlp_context_filters_witness :
  Terms.has_upper "Material" = true
  /\ exists requirements compliance,
       Blueprint.nlp_context Cases.capitalised_item
         (NLPSuccess Cases.compliance_data)
       = Ok (Some (requirements, compliance))
       /\ List.length requirements = 1%nat
       /\ compliance = [].
Proof.
  split; [reflexivity|]. eexists. eexists. split; [reflexivity|].
  split; [reflexivity|].
  destruct (nlp_context_filters Cases.capitalised_item Cases.compliance_data
              _ _ eq_refl) as (reqs & comps & ar & ac & _ & _ & _ & _ & _ & _ & Hup).
  exact (Hup "Material" eq_refl eq_refl).
Defined.
